(** * EmojAI: the emoji suggestion agent of [pydenticai/ai_agent.py]

    A shallow embedding of the suggestion pipeline: the validated result
    model [EmojiSuggestion], the keyword classifier [SentimentAnalyzer], the
    remote client [GeminiClient] and the orchestrator [AIAgent].

    Python values are embedded as follows.
    - [str] is the list of its Unicode code points ([pystr]).
    - An exception is a value of [pyexc]; a call that may raise returns
      [pyexc + A] ([inl] raised, [inr] returned).
    - A [dict] literal is the association list of its items in insertion
      order, which is the order [dict.items()] iterates in.
    - What the interpreter and the network decide ([str.lower] outside
      ASCII, [str(e)], the answer to a POST) are variables of a section.
    - Standard output is a UTF-8 text stream: a [print] raises when its
      text holds a surrogate code point, and writes nothing of it. *)

From Stdlib Require Import String Ascii List NArith ZArith Bool Lia.
Import ListNotations.

Set Implicit Arguments.

(* ------------------------------------------------------------------ *)
(** * Python strings *)

Module PyStr.

(** A [str]: its code points, in order. *)
Definition pystr : Type := list N.

(** An ASCII literal of the source as a [str]. *)
Definition py (s : string) : pystr :=
  map N_of_ascii (list_ascii_of_string s).

Definition is_empty (s : pystr) : bool :=
  match s with [] => true | _ :: _ => false end.

Definition eqb (a b : pystr) : bool :=
  if list_eq_dec N.eq_dec a b then true else false.

(** [s.startswith(p)] *)
Fixpoint startswith (p s : pystr) : bool :=
  match p, s with
  | [], _ => true
  | _ :: _, [] => false
  | a :: p', b :: s' => N.eqb a b && startswith p' s'
  end.

(** [needle in hay] for two strings: [needle] occurs at some offset. *)
Fixpoint contains (needle hay : pystr) : bool :=
  startswith needle hay
  || match hay with
     | [] => false
     | _ :: hay' => contains needle hay'
     end.

(** The declarative reading of [in]: a contiguous occurrence. *)
Definition occurs (needle hay : pystr) : Prop :=
  exists pre post, hay = pre ++ needle ++ post.

(** ** Case mapping *)

Definition is_ascii (c : N) : bool := (c <? 128)%N.

(** Lower-casing of one ASCII code point: [A-Z] moves to [a-z]. *)
Definition ascii_lower (c : N) : N :=
  if ((65 <=? c) && (c <=? 90))%N then (c + 32)%N else c.

(** ** Whitespace, [strip] and [split] *)

(** The code points [str.isspace] accepts (the interpreter's white space
    table): the ASCII controls 9-13 and 28-31, the space, NEL, NBSP and the
    Unicode space separators and line/paragraph separators. *)
Definition isspace (c : N) : bool :=
  ((9 <=? c) && (c <=? 13) || (28 <=? c) && (c <=? 32)
   || (c =? 0x85) || (c =? 0xa0) || (c =? 0x1680)
   || (0x2000 <=? c) && (c <=? 0x200a)
   || (c =? 0x2028) || (c =? 0x2029) || (c =? 0x202f)
   || (c =? 0x205f) || (c =? 0x3000))%N.

Fixpoint lstrip (s : pystr) : pystr :=
  match s with
  | [] => []
  | c :: s' => if isspace c then lstrip s' else s
  end.

Definition rstrip (s : pystr) : pystr := rev (lstrip (rev s)).

(** [s.strip()] *)
Definition strip (s : pystr) : pystr := rstrip (lstrip s).

(** The scan of [s.split()]: [cur] is the token being read; white space
    closes it, and an empty token is never emitted. *)
Fixpoint split_from (cur s : pystr) : list pystr :=
  match s with
  | [] => if is_empty cur then [] else [cur]
  | c :: s' =>
      if isspace c
      then (if is_empty cur then split_from [] s'
            else cur :: split_from [] s')
      else split_from (cur ++ [c]) s'
  end.

(** [s.split()] *)
Definition split (s : pystr) : list pystr := split_from [] s.

End PyStr.
Export PyStr.

(* ------------------------------------------------------------------ *)
(** * Values, exceptions and results *)

(** The values a decoded JSON document is made of, which are also the values
    a generation client can hand back. A [float] is kept as its bit pattern:
    no operation of the agent looks inside a number. *)
#[warnings="-register-all"]
Inductive pyval : Type :=
| PNone
| PBool (b : bool)
| PInt (n : Z)
| PFloat (bits : N)
| PStr (s : pystr)
| PList (items : list pyval)
| PDict (items : list (pystr * pyval)).

(** The exceptions that can travel through the agent. *)
Inductive pyexc : Type :=
| KeyError (key : pyval)
| IndexError
| TypeError
| AttributeError
| ConnectionError (detail : pystr)
| Timeout
| HTTPError (status : Z)
| JSONDecodeError
| ValueError (msg : pystr)
| ValidationError (cause : pyexc)
| OtherException (detail : pystr).

(** A call that raises ([inl]) or returns ([inr]). *)
Definition result (A : Type) : Type := (pyexc + A)%type.

Definition raise {A : Type} (e : pyexc) : result A := inl e.
Definition ret {A : Type} (a : A) : result A := inr a.

Definition bind {A B : Type} (m : result A) (k : A -> result B) : result B :=
  match m with
  | inl e => inl e
  | inr a => k a
  end.

Notation "x <- m ;; k" := (bind m (fun x => k))
  (at level 61, m at next level, right associativity).
Notation "m ;;; k" := (bind m (fun _ => k))
  (at level 61, right associativity).

(** [try: body  except Exception as e: handler(e)] *)
Definition try_except {A : Type} (body : result A) (handler : pyexc -> result A)
  : result A :=
  match body with
  | inl e => handler e
  | inr a => inr a
  end.

Definition raised {A : Type} (r : result A) : bool :=
  match r with inl _ => true | inr _ => false end.

(* ------------------------------------------------------------------ *)
(** * Pydantic model *)

Record EmojiSuggestion : Type := MkEmojiSuggestion {
  emojis : list pystr;
  message : pystr
}.

(** [EmojiSuggestion.validate_emojis]: the field validator of [emojis]. *)
Definition validate_emojis (v : list pystr) : result (list pystr) :=
  if (length v <? 3)%nat
  then raise (ValueError (py "At least 3 emojis required"))
  else ret (firstn 20 v).

(** [EmojiSuggestion(emojis=..., message=...)]: both arguments already have
    their declared types, so the only validation that can fail is the field
    validator, whose [ValueError] pydantic reports as a [ValidationError];
    the field keeps what the validator returns. *)
Definition EmojiSuggestion_new (emojis0 : list pystr) (message0 : pystr)
  : result EmojiSuggestion :=
  match validate_emojis emojis0 with
  | inl e => raise (ValidationError e)
  | inr v => ret {| emojis := v; message := message0 |}
  end.

(* ------------------------------------------------------------------ *)
(** * Dictionaries and subscripts *)

(** [d.get(k)] on the items of a dict: the value stored under [k], if any. *)
Fixpoint dict_get {V : Type} (d : list (pystr * V)) (k : pystr) : option V :=
  match d with
  | [] => None
  | (k', v) :: d' => if PyStr.eqb k' k then Some v else dict_get d' k
  end.

(** [d[k]] for a string key: [KeyError] when the key is absent. *)
Definition dict_getitem {V : Type} (d : list (pystr * V)) (k : pystr)
  : result V :=
  match dict_get d k with
  | Some v => ret v
  | None => raise (KeyError (PStr k))
  end.

(** [d.get(k, default)] *)
Definition dict_get_default {V : Type} (d : list (pystr * V)) (k : pystr)
  (default : V) : V :=
  match dict_get d k with
  | Some v => v
  | None => default
  end.

(** The element a sequence of length [len] holds at Python index [i]
    (negative indices count from the end), if [i] is in range. *)
Definition seq_index {A : Type} (l : list A) (i : Z) : option A :=
  let len := Z.of_nat (length l) in
  let j := if (i <? 0)%Z then (i + len)%Z else i in
  if ((0 <=? j) && (j <? len))%Z then nth_error l (Z.to_nat j) else None.

(** [v[key]] with a string key. Only a dict accepts one: a list or a string
    wants an integer, and the other values are not subscriptable. *)
Definition getitem_str (v : pyval) (key : pystr) : result pyval :=
  match v with
  | PDict items => dict_getitem items key
  | _ => raise TypeError
  end.

(** [v[i]] with an integer. A list gives its element, a string the
    one-character string at [i]; a dict decoded from JSON has string keys
    only, so an integer key is never found. *)
Definition getitem_int (v : pyval) (i : Z) : result pyval :=
  match v with
  | PList items =>
      match seq_index items i with
      | Some x => ret x
      | None => raise IndexError
      end
  | PStr s =>
      match seq_index s i with
      | Some c => ret (PStr [c])
      | None => raise IndexError
      end
  | PDict _ => raise (KeyError (PInt i))
  | _ => raise TypeError
  end.

(** [v.strip()]: only a [str] has the method. *)
Definition str_strip (v : pyval) : result pystr :=
  match v with
  | PStr s => ret (strip s)
  | _ => raise AttributeError
  end.

(* ------------------------------------------------------------------ *)
(** * Sentiment analysis: the tables *)

Record SentimentAnalyzer : Type := MkSentimentAnalyzer {
  emoji_library : list (pystr * list pystr);
  sentiment_map : list (pystr * list pystr)
}.

(** [SentimentAnalyzer.__init__]. The emoji literals are written as the code
    points the source file holds for them. *)
Definition SentimentAnalyzer_init : SentimentAnalyzer :=
  {| emoji_library := ([
       (py "happy",
         [[0xf0; 0x178; 0x2dc; 0x20ac]; [0xf0; 0x178; 0x2dc; 0x192];
          [0xf0; 0x178; 0x2dc; 0x201e]; [0xf0; 0x178; 0x2dc];
          [0xf0; 0x178; 0x2dc; 0x2020]; [0xf0; 0x178; 0xa5; 0xb9];
          [0xf0; 0x178; 0x2dc; 0x2026]; [0xf0; 0x178; 0x2dc; 0x201a];
          [0xf0; 0x178; 0xa4; 0xa3]; [0xf0; 0x178; 0xa5; 0xb2]]);
       (py "sad",
         [[0xf0; 0x178; 0x2dc; 0xa2]; [0xf0; 0x178; 0x2dc; 0xad];
          [0xf0; 0x178; 0x2dc; 0xa4]; [0xf0; 0x178; 0x2dc; 0xa0];
          [0xf0; 0x178; 0x2dc; 0xa1]; [0xf0; 0x178; 0xa4; 0xac];
          [0xf0; 0x178; 0xa4; 0xaf]; [0xf0; 0x178; 0x2dc; 0xb3];
          [0xf0; 0x178; 0xa5; 0xba]; [0xf0; 0x178; 0x2dc; 0xa5]]);
       (py "love",
         [[0xf0; 0x178; 0xa5; 0xb0]; [0xf0; 0x178; 0x2dc];
          [0xe2; 0xa4; 0xef; 0xb8]; [0xf0; 0x178; 0xa7; 0xa1];
          [0xf0; 0x178; 0x2019; 0x203a]; [0xf0; 0x178; 0x2019; 0x161];
          [0xf0; 0x178; 0x2019; 0x2122]; [0xf0; 0x178; 0x2019; 0x153];
          [0xf0; 0x178; 0xa4; 0x17d]; [0xf0; 0x178; 0x2013; 0xa4]]);
       (py "excited",
         [[0xf0; 0x178; 0xa4; 0xa9]; [0xf0; 0x178; 0xa5; 0xb3];
          [0xf0; 0x178; 0x2dc; 0x17d]; [0xf0; 0x178; 0xa4; 0xa0];
          [0xf0; 0x178; 0x2dc]; [0xf0; 0x178; 0x2dc; 0xb8];
          [0xf0; 0x178; 0x2dc; 0xb9]; [0xf0; 0x178; 0x2dc; 0xba];
          [0xf0; 0x178; 0x2dc; 0xbb]; [0xf0; 0x178; 0x2dc; 0xbc]]);
       (py "greeting",
         [[0xf0; 0x178; 0x2018; 0x2039]; [0xf0; 0x178; 0xa4; 0x161];
          [0xf0; 0x178; 0x2013; 0xef; 0xb8]; [0xe2; 0x153; 0x2039];
          [0xf0; 0x178; 0x2013; 0x2013]; [0xf0; 0x178; 0x2018; 0x152];
          [0xf0; 0x178; 0xa4]; [0xe2; 0x153; 0x152; 0xef; 0xb8];
          [0xf0; 0x178; 0xa4; 0x17e]; [0xf0; 0x178; 0xa4; 0x178]]);
       (py "neutral",
         [[0xf0; 0x178; 0x2dc]; [0xf0; 0x178; 0x2dc; 0x2018];
          [0xf0; 0x178; 0x2dc; 0xb6]; [0xf0; 0x178; 0xab; 0xa5];
          [0xf0; 0x178; 0x2dc; 0xb6; 0xe2; 0x20ac;
           0xf0; 0x178; 0x152; 0xab; 0xef; 0xb8];
          [0xf0; 0x178; 0x2122; 0x201e]; [0xf0; 0x178; 0x2dc];
          [0xf0; 0x178; 0x2dc; 0x2019]; [0xf0; 0x178; 0xa4; 0xa8];
          [0xf0; 0x178; 0xa7]])
     ])%N;
     sentiment_map := [
       (py "happy",
         [py "happy"; py "joy"; py "good"; py "great"; py "awesome"]);
       (py "sad", [py "sad"; py "bad"; py "upset"; py "unhappy"]);
       (py "love", [py "love"; py "heart"; py "adore"; py "cherish"]);
       (py "excited", [py "excited"; py "wow"; py "amazing"; py "thrilled"]);
       (py "greeting", [py "hello"; py "hi"; py "hey"; py "greetings"])
     ] |}.

(* ------------------------------------------------------------------ *)
(** * HTTP exchange *)

(** What [requests.post] is called with. *)
Record Request : Type := MkRequest {
  url : pystr;
  headers : list (pystr * pystr);
  json_body : pyval;
  timeout : Z
}.

(** What the agent reads of a [requests.Response]: the status code and what
    [response.json()] does (raises on a body that is not JSON, or returns the
    decoded document). *)
Record Response : Type := MkResponse {
  status_code : Z;
  json : result pyval
}.

(** [response.raise_for_status()]: an [HTTPError] for a client error (4xx)
    or a server error (5xx) status, nothing otherwise. *)
Definition raise_for_status (response : Response) : result unit :=
  let s := status_code response in
  if ((400 <=? s) && (s <? 600))%Z then raise (HTTPError s) else ret tt.

Record GeminiClient : Type := MkGeminiClient {
  api_key : pystr;
  base_url : pystr
}.

(** [GeminiClient.__init__]: [getenv] is [os.getenv] on the process
    environment; a missing or empty key is refused. *)
Definition GeminiClient_init (getenv : pystr -> option pystr)
  : result GeminiClient :=
  match getenv (py "GEMINI_API_KEY") with
  | None => raise (ValueError (py "API key not found"))
  | Some key =>
      if is_empty key then raise (ValueError (py "API key not found"))
      else ret {| api_key := key;
                  base_url := py "https://generativelanguage.googleapis.com/v1beta/models/gemini-2.0-flash:generateContent" |}
  end.

(** The request [GeminiClient.generate] sends for [prompt]. *)
Definition generate_request (self : GeminiClient) (prompt : pystr) : Request :=
  {| url := base_url self ++ py "?key=" ++ api_key self;
     headers := [(py "Content-Type", py "application/json")];
     json_body :=
       PDict [(py "contents",
               PList [PDict [(py "parts",
                              PList [PDict [(py "text", PStr prompt)]])]])];
     timeout := 10 |}.

(** [data["candidates"][0]["content"]["parts"][0]["text"]], subscript by
    subscript, left to right. *)
Definition extract_text (data : pyval) : result pyval :=
  candidates <- getitem_str data (py "candidates") ;;
  candidate <- getitem_int candidates 0 ;;
  content <- getitem_str candidate (py "content") ;;
  parts <- getitem_str content (py "parts") ;;
  part <- getitem_int parts 0 ;;
  getitem_str part (py "text").

(* ------------------------------------------------------------------ *)
(** * Standard output *)

(** Standard output is the text stream the interpreter opens by default:
    UTF-8 with the strict error handler. Every string can be written to it
    but those that hold a surrogate code point (U+D800..U+DFFF), which a
    Python string may hold and UTF-8 cannot encode: writing one raises
    [UnicodeEncodeError] and writes nothing. *)
Definition is_surrogate (c : N) : bool := ((0xd800 <=? c) && (c <=? 0xdfff))%N.

Definition utf8_encodable (s : pystr) : bool :=
  forallb (fun c => negb (is_surrogate c)) s.

Definition UnicodeEncodeError : pyexc :=
  OtherException (py "UnicodeEncodeError").

(* ------------------------------------------------------------------ *)
(** * The agent, over the interpreter and the network *)

Section Runtime.

(** [str.lower] on a string that is not pure ASCII (the interpreter's
    full Unicode case mapping). *)
Variable unicode_lower : pystr -> pystr.

(** [str(e)] of an exception. *)
Variable exc_str : pyexc -> pystr.

(** [requests.post]: what the network does with a request, either an
    exception (no connection, timeout, ...) or a response. *)
Variable requests_post : Request -> result Response.

(** [s.lower()]: a pure ASCII string is mapped code point by code point,
    any other string goes through the Unicode case mapping. *)
Definition lower (s : pystr) : pystr :=
  if forallb is_ascii s then map ascii_lower s else unicode_lower s.

(** [any(keyword in lower_msg for keyword in keywords)] *)
Definition any_keyword_in (keywords : list pystr) (lower_msg : pystr) : bool :=
  existsb (fun keyword => contains keyword lower_msg) keywords.

(** The [for] loop of [detect_sentiment] over [sentiment_map.items()]:
    the first sentiment one of whose keywords is in [lower_msg]. *)
Fixpoint first_sentiment (items : list (pystr * list pystr))
  (lower_msg : pystr) : option pystr :=
  match items with
  | [] => None
  | (sentiment0, keywords) :: items' =>
      if any_keyword_in keywords lower_msg then Some sentiment0
      else first_sentiment items' lower_msg
  end.

(** [SentimentAnalyzer.detect_sentiment] *)
Definition detect_sentiment (self : SentimentAnalyzer) (message0 : pystr)
  : pystr :=
  let lower_msg := lower message0 in
  match first_sentiment (sentiment_map self) lower_msg with
  | Some sentiment0 => sentiment0
  | None =>
      if contains (py "?") message0 then py "confused" else py "neutral"
  end.

(** [SentimentAnalyzer.get_emojis]: the default [emoji_library['neutral']]
    is evaluated before [get] is called. *)
Definition get_emojis (self : SentimentAnalyzer) (sentiment0 : pystr)
  : result (list pystr) :=
  default <- dict_getitem (emoji_library self) (py "neutral") ;;
  ret (dict_get_default (emoji_library self) sentiment0 default).

(** The [try] block of [GeminiClient.generate]. *)
Definition generate_body (self : GeminiClient) (prompt : pystr)
  : result pyval :=
  response <- requests_post (generate_request self prompt) ;;
  raise_for_status response ;;;
  data <- json response ;;
  extract_text data.

(** [GeminiClient.generate] *)
Definition generate (self : GeminiClient) (prompt : pystr) : result pyval :=
  try_except (generate_body self prompt)
    (fun e => raise (ValueError (py "API request failed: " ++ exc_str e))).

(** An [AIAgent]: [gemini_generate] is the [generate] method of the client
    the agent holds in [self.gemini]. *)
Record AIAgent : Type := MkAIAgent {
  gemini_generate : pystr -> result pyval;
  sentiment : SentimentAnalyzer
}.

(** [AIAgent.__init__] *)
Definition AIAgent_init (getenv : pystr -> option pystr) : result AIAgent :=
  client <- GeminiClient_init getenv ;;
  ret {| gemini_generate := generate client;
         sentiment := SentimentAnalyzer_init |}.

(** The prompt of [suggest_emojis]. *)
Definition suggest_prompt (sentiment0 message0 : pystr) : pystr :=
  py "Suggest 10 emojis for this " ++ sentiment0 ++ py " message: '"
  ++ message0 ++ py "'. Return only emojis separated by spaces.".

(** The [try] block of [AIAgent.suggest_emojis]. *)
Definition suggest_body (self : AIAgent) (message0 : pystr)
  : result EmojiSuggestion :=
  let sentiment0 := detect_sentiment (sentiment self) message0 in
  let prompt := suggest_prompt sentiment0 message0 in
  response <- gemini_generate self prompt ;;
  stripped <- str_strip response ;;
  let emojis0 := split stripped in
  EmojiSuggestion_new (firstn 15 emojis0) message0.

(** The [except] block of [AIAgent.suggest_emojis], after its [print]. *)
Definition suggest_fallback (self : AIAgent) (message0 : pystr)
  : result EmojiSuggestion :=
  let sentiment0 := detect_sentiment (sentiment self) message0 in
  emojis0 <- get_emojis (sentiment self) sentiment0 ;;
  EmojiSuggestion_new emojis0 message0.

(** The line the [except] block of [suggest_emojis] prints for [e]. *)
Definition fallback_line (e : pyexc) : pystr :=
  py "Using fallback emojis due to: " ++ exc_str e.

(** [AIAgent.suggest_emojis]: the lines printed, and the outcome. The
    [print] of the [except] block is not guarded: when its line cannot be
    written, its [UnicodeEncodeError] leaves [suggest_emojis] and the
    fallback is not reached. *)
Definition suggest_emojis (self : AIAgent) (message0 : pystr)
  : list pystr * result EmojiSuggestion :=
  match suggest_body self message0 with
  | inr suggestion => ([], ret suggestion)
  | inl e =>
      if utf8_encodable (fallback_line e)
      then ([fallback_line e], suggest_fallback self message0)
      else ([], raise UnicodeEncodeError)
  end.

End Runtime.

(* ------------------------------------------------------------------ *)
(** * Vocabulary of the statements *)

(** The sentiment names. *)
Definition happy : pystr := py "happy".
Definition sad : pystr := py "sad".
Definition love : pystr := py "love".
Definition excited : pystr := py "excited".
Definition greeting : pystr := py "greeting".
Definition neutral : pystr := py "neutral".
Definition confused : pystr := py "confused".

(** The code point of the question mark. *)
Definition question_mark : N := 63%N.

(** One of [keywords] occurs in [text]. *)
Definition some_keyword_occurs (keywords : list pystr) (text : pystr) : Prop :=
  exists keyword, In keyword keywords /\ occurs keyword text.

(** A token of white-space separated text: not empty, no white space. *)
Definition is_token (t : pystr) : bool :=
  negb (is_empty t) && forallb (fun c => negb (isspace c)) t.

(** White space only, possibly none. *)
Definition is_blank (g : pystr) : bool := forallb isspace g.

(** A separator: white space only, at least one code point. *)
Definition is_gap (g : pystr) : bool := negb (is_empty g) && is_blank g.

(** The text made of the token [first] and the tokens of [rest], each
    preceded by its separator, between a leading and a trailing blank. *)
Definition spaced (lead first : pystr) (rest : list (pystr * pystr))
  (trail : pystr) : pystr :=
  lead ++ first ++ flat_map (fun gt => fst gt ++ snd gt) rest ++ trail.

(** A 2xx status. *)
Definition status_2xx (s : Z) : bool := ((200 <=? s) && (s <? 300))%Z.

(** A decoded document of the shape the client reads: a dict whose
    ["candidates"] is a list whose first element is a dict whose ["content"]
    is a dict whose ["parts"] is a list whose first element is a dict that
    holds [text] under ["text"]. *)
Definition has_text_shape (data text : pyval) : Prop :=
  exists top candidate candidates' content part parts',
    data = PDict top
    /\ dict_get top (py "candidates")
       = Some (PList (PDict candidate :: candidates'))
    /\ dict_get candidate (py "content") = Some (PDict content)
    /\ dict_get content (py "parts") = Some (PList (PDict part :: parts'))
    /\ dict_get part (py "text") = Some text.

(** An agent that holds the client method [g] and a fresh analyzer. *)
Definition agent_with (g : pystr -> result pyval) : AIAgent :=
  {| gemini_generate := g; sentiment := SentimentAnalyzer_init |}.

(* ------------------------------------------------------------------ *)
(** * Concrete runs *)

Module Examples.

(** An interpreter stand-in for the runs below, whose messages are ASCII:
    no case mapping outside ASCII, and a fixed rendering of exceptions. *)
Definition plain_unicode_lower (s : pystr) : pystr := s.
Definition plain_exc_str (e : pyexc) : pystr :=
  match e with
  | ValueError msg => msg
  | _ => py "error"
  end.

(** A client whose every call fails. *)
Definition failing_generate (prompt : pystr) : result pyval :=
  raise (ValueError (py "API request failed: unreachable")).

(** [n] distinct emoji, U+1F600 onwards. *)
Definition faces (n : nat) : list pystr :=
  map (fun i => [(0x1f600 + N.of_nat i)%N]) (seq 0 n).

(** Eighteen tokens separated by single spaces. *)
Definition eighteen_rest : list (pystr * pystr) :=
  map (fun t => (py " ", t)) (tl (faces 18)).
Definition eighteen_text : pystr :=
  spaced [] [0x1f600%N] eighteen_rest [].

Definition eighteen_generate (prompt : pystr) : result pyval :=
  ret (PStr eighteen_text).

(** A well-shaped document. *)
Definition shaped_document (text : pystr) : pyval :=
  PDict [(py "candidates",
          PList [PDict [(py "content",
                         PDict [(py "parts",
                                 PList [PDict [(py "text", PStr text)]])])]])].

(** A network that answers every request with status [status] and a
    well-shaped document. *)
Definition answering (status : Z) (text : pystr) (request : Request)
  : result Response :=
  ret {| status_code := status; json := ret (shaped_document text) |}.

Definition client : GeminiClient :=
  {| api_key := py "k"; base_url := py "https://example.invalid/generate" |}.

End Examples.

(* ------------------------------------------------------------------ *)
(** * The command line *)

(** [sep.join(items)] *)
Definition str_join (sep : pystr) (items : list pystr) : pystr :=
  match items with
  | [] => []
  | x :: items' => x ++ flat_map (fun y => sep ++ y) items'
  end.

(** What [print(s)] writes to standard output: [s] and a newline. *)
Definition print_out (s : pystr) : pystr := s ++ [10%N].

(** What [print(a, b)] writes: the two arguments, a space between them, and
    a newline. *)
Definition print_out2 (a b : pystr) : pystr := a ++ py " " ++ b ++ [10%N].

(** What [input] raises when standard input has no line left. *)
Definition EOFError : pyexc := OtherException (py "EOFError").

(** The four lines [main] prints first. *)
Definition banner : list pystr :=
  [print_out ([10; 0xf0; 0x178; 0x152; 0x178]%N
              ++ py " Ultimate Emoji Suggester "
              ++ [0xf0; 0x178; 0x152; 0x178]%N);
   print_out (py "----------------------------");
   print_out (py "Enter a message to get emoji suggestions!");
   print_out (py "Type 'q' to quit" ++ [10%N])].

(** The prompt [input] writes before it reads a line. *)
Definition input_prompt : pystr := py "Your message: ".

Definition goodbye : pystr :=
  print_out ([10%N] ++ py "Goodbye! " ++ [0xf0; 0x178; 0x2018; 0x2039]%N).

(** The three lines [main] prints for a suggestion. *)
Definition suggestion_block (suggestion : EmojiSuggestion) : list pystr :=
  [print_out ([10%N] ++ py "For: " ++ message suggestion);
   print_out2 (py "Emojis:") (str_join (py " ") (emojis suggestion));
   print_out (repeat 61%N 50 ++ [10%N])].

(** The outcome of a run of [main]: what was written to standard output,
    chunk by chunk, how many times [requests.post] was called, and how the
    run ended. *)
Record Run : Type := MkRun {
  stdout : list pystr;
  posts : nat;
  outcome : result unit
}.

(** [out] written before the run [r]. *)
Definition after_output (out : list pystr) (r : Run) : Run :=
  {| stdout := out ++ stdout r; posts := posts r; outcome := outcome r |}.

Section CommandLine.

Variable unicode_lower : pystr -> pystr.
Variable exc_str : pyexc -> pystr.

(** The network over the life of the process: [network n] is what
    [requests.post] does when it is called for the [n]-th time (from 0). *)
Variable network : nat -> Request -> result Response.

(** [os.getenv] *)
Variable getenv : pystr -> option pystr.

(** The agent [main] holds, as its call to the network number [n] finds it:
    the client and the analyzer never change, the network may. *)
Definition agent_at (client : GeminiClient) (n : nat) : AIAgent :=
  {| gemini_generate := generate exc_str (network n) client;
     sentiment := SentimentAnalyzer_init |}.

(** [message.lower() == 'q'] for the stripped line. *)
Definition is_quit (line : pystr) : bool :=
  PyStr.eqb (lower unicode_lower (strip line)) (py "q").

(** The calls to [requests.post] over the run, as a state: [n] is the
    number of calls made so far. A call is answered by the network as it is
    at that call, and counted whether it returns or raises. *)
Definition requests_post_at (request : Request) (n : nat)
  : result Response * nat :=
  (network n request, S n).

(** [GeminiClient.generate], the calls counted. *)
Definition generate_at (client : GeminiClient) (prompt : pystr) (n : nat)
  : result pyval * nat :=
  let '(posted, n') := requests_post_at (generate_request client prompt) n in
  (try_except
     (response <- posted ;;
      raise_for_status response ;;;
      data <- json response ;;
      extract_text data)
     (fun e => raise (ValueError (py "API request failed: " ++ exc_str e))),
   n').

(** The [try] block of [AIAgent.suggest_emojis] for the agent of [main],
    the calls counted. *)
Definition suggest_body_at (client : GeminiClient) (message0 : pystr)
  (n : nat) : result EmojiSuggestion * nat :=
  let sentiment0 :=
    detect_sentiment unicode_lower SentimentAnalyzer_init message0 in
  let prompt := suggest_prompt sentiment0 message0 in
  let '(generated, n') := generate_at client prompt n in
  (response <- generated ;;
   stripped <- str_strip response ;;
   let emojis0 := split stripped in
   EmojiSuggestion_new (firstn 15 emojis0) message0,
   n').

(** [AIAgent.suggest_emojis] for the agent of [main], the calls counted:
    the lines printed, the outcome, and the number of calls after it. The
    [except] block makes no call. *)
Definition suggest_emojis_at (client : GeminiClient) (message0 : pystr)
  (n : nat) : list pystr * result EmojiSuggestion * nat :=
  let '(body, n') := suggest_body_at client message0 n in
  match body with
  | inr suggestion => ([], ret suggestion, n')
  | inl e =>
      if utf8_encodable (fallback_line exc_str e)
      then ([fallback_line exc_str e],
            suggest_fallback unicode_lower (agent_at client n) message0, n')
      else ([], raise UnicodeEncodeError, n')
  end.

(** The [while True] loop of [main]. [lines] are the lines standard input
    still holds, as [input] returns them; [n] is the number of calls to
    [requests.post] made so far. The prints of fixed text cannot fail; the
    two that show the suggestion can: [print(f"\nFor: ...")] writes its
    one string or nothing, [print("Emojis:", ...)] writes its first
    argument and the separator before it fails on the second. *)
Fixpoint main_loop (client : GeminiClient) (n : nat) (lines : list pystr)
  : Run :=
  match lines with
  | [] => {| stdout := [input_prompt]; posts := n; outcome := raise EOFError |}
  | line :: lines' =>
      let message0 := strip line in
      if PyStr.eqb (lower unicode_lower message0) (py "q")
      then {| stdout := [input_prompt; goodbye]; posts := n;
              outcome := ret tt |}
      else if is_empty message0
      then after_output
             [input_prompt; print_out (py "Please enter a message")]
             (main_loop client n lines')
      else
        match suggest_emojis_at client message0 n with
        | (printed, inl e, n') =>
            {| stdout := input_prompt :: map print_out printed;
               posts := n'; outcome := raise e |}
        | (printed, inr suggestion, n') =>
            if negb (utf8_encodable
                       ([10%N] ++ py "For: " ++ message suggestion))
            then {| stdout := input_prompt :: map print_out printed;
                    posts := n'; outcome := raise UnicodeEncodeError |}
            else if negb (utf8_encodable
                            (str_join (py " ") (emojis suggestion)))
            then {| stdout :=
                      input_prompt :: map print_out printed
                      ++ [print_out ([10%N] ++ py "For: "
                                     ++ message suggestion);
                          py "Emojis:"; py " "];
                    posts := n'; outcome := raise UnicodeEncodeError |}
            else
              after_output
                (input_prompt :: map print_out printed
                 ++ suggestion_block suggestion)
                (main_loop client n' lines')
        end
  end.

(** [main]: the banner, [AIAgent()] -- which fails exactly when
    [GeminiClient()] does, the analyzer's constructor cannot fail -- and the
    loop. *)
Definition main (lines : list pystr) : Run :=
  match GeminiClient_init getenv with
  | inl e => {| stdout := banner; posts := 0; outcome := raise e |}
  | inr client => after_output banner (main_loop client 0 lines)
  end.

End CommandLine.



(* ------------------------------------------------------------------ *)
(** * Further concrete runs *)

Module Scenarios.

(** An analyzer whose library has an entry for happy and none for
    neutral. *)
Definition no_neutral : SentimentAnalyzer :=
  {| emoji_library := [(py "happy", Examples.faces 3)];
     sentiment_map := [] |}.

(** An environment with the key, and one without. *)
Definition env_with_key (name : pystr) : option pystr :=
  if PyStr.eqb name (py "GEMINI_API_KEY") then Some (py "secret") else None.
Definition env_empty_key (name : pystr) : option pystr :=
  if PyStr.eqb name (py "GEMINI_API_KEY") then Some [] else None.
Definition env_without_key (name : pystr) : option pystr := None.

(** A network that is down. *)
Definition unreachable (request : Request) : result Response :=
  raise (ConnectionError (py "unreachable")).

(** A network that answers with status [status] and the document [data]. *)
Definition answering_with (status : Z) (data : pyval) (request : Request)
  : result Response :=
  ret {| status_code := status; json := ret data |}.

(** A well-shaped document whose text field holds [text]. *)
Definition shaped_value (text : pyval) : pyval :=
  PDict [(py "candidates",
          PList [PDict [(py "content",
                         PDict [(py "parts",
                                 PList [PDict [(py "text", text)]])])]])].

(** A client that fails with a message standard output cannot encode: a
    lone surrogate. *)
Definition surrogate_failing_generate (prompt : pystr) : result pyval :=
  raise (ValueError [0xd800%N]).

(** A network whose every answer is a well-shaped 200 with three tokens,
    the first a lone surrogate. *)
Definition surrogate_network (n : nat) : Request -> result Response :=
  Examples.answering 200 ([0xd800%N] ++ py " a b").

(** A network that answers three emoji to every call. *)
Definition three_faces_network (n : nat) : Request -> result Response :=
  Examples.answering 200
    (str_join (py " ") (Examples.faces 3)).

End Scenarios.

(* ------------------------------------------------------------------ *)
(** * Strings: substring search *)

Lemma startswith_app (p post : pystr) : startswith p (p ++ post) = true.
Proof.
  induction p as [|a p IH]; simpl; [reflexivity|].
  now rewrite N.eqb_refl, IH.
Qed.

Lemma startswith_prefix (p s : pystr) :
  startswith p s = true -> exists post, s = p ++ post.
Proof.
  revert s; induction p as [|a p IH]; intros s H.
  - now exists s.
  - destruct s as [|b s]; simpl in H; [discriminate|].
    apply andb_prop in H as [Hab Hrest].
    apply N.eqb_eq in Hab; subst b.
    destruct (IH _ Hrest) as [post ->].
    now exists post.
Qed.

Lemma contains_startswith (needle hay : pystr) :
  startswith needle hay = true -> contains needle hay = true.
Proof.
  intros H. destruct hay; simpl; now rewrite H.
Qed.

Lemma contains_occurs (needle hay : pystr) :
  contains needle hay = true <-> occurs needle hay.
Proof.
  split.
  - induction hay as [|c hay IH]; simpl; intros H.
    + rewrite orb_false_r in H.
      destruct (startswith_prefix _ _ H) as [post Hpost].
      now exists [], post.
    + apply orb_prop in H as [H|H].
      * destruct (startswith_prefix _ _ H) as [post Hpost].
        now exists [], post.
      * destruct (IH H) as (pre & post & ->).
        now exists (c :: pre), post.
  - intros (pre & post & ->).
    induction pre as [|c pre IH]; simpl.
    + apply contains_startswith, startswith_app.
    + rewrite IH. apply orb_true_r.
Qed.

Lemma contains_char (c : N) (s : pystr) : contains [c] s = true <-> In c s.
Proof.
  rewrite contains_occurs. split.
  - intros (pre & post & ->). apply in_or_app. right. now left.
  - intros H. apply in_split in H as (pre & post & ->). now exists pre, post.
Qed.

(* ------------------------------------------------------------------ *)
(** * The validated model *)

Lemma validate_emojis_short (v : list pystr) :
  length v < 3 ->
  validate_emojis v = raise (ValueError (py "At least 3 emojis required")).
Proof.
  intros H. unfold validate_emojis.
  apply Nat.ltb_lt in H. now rewrite H.
Qed.

Lemma validate_emojis_long (v : list pystr) :
  3 <= length v -> validate_emojis v = ret (firstn 20 v).
Proof.
  intros H. unfold validate_emojis.
  destruct (Nat.ltb_spec (length v) 3) as [Hlt|_]; [lia | reflexivity].
Qed.

Lemma EmojiSuggestion_new_short (l : list pystr) (m : pystr) :
  length l < 3 ->
  EmojiSuggestion_new l m
  = raise (ValidationError (ValueError (py "At least 3 emojis required"))).
Proof.
  intros H. unfold EmojiSuggestion_new. now rewrite validate_emojis_short.
Qed.

Lemma EmojiSuggestion_new_long (l : list pystr) (m : pystr) :
  3 <= length l ->
  EmojiSuggestion_new l m = ret {| emojis := firstn 20 l; message := m |}.
Proof.
  intros H. unfold EmojiSuggestion_new. now rewrite validate_emojis_long.
Qed.

Lemma firstn_whole {A : Type} (n : nat) (l : list A) :
  length l <= n -> firstn n l = l.
Proof. apply firstn_all2. Qed.

(** C2, as the code has it. A sequence of fewer than 3 emoji is refused with
    a validation error; a sequence of 3 or more is accepted, also when it is
    longer than 20, and then only its first 20 emoji are kept. Every
    suggestion that is constructed holds between 3 and 20 emoji, which are
    the first 20 of the supplied ones (all of them when at most 20 were
    supplied) in the supplied order, nothing dropped in between, nothing
    merged, nothing moved; the message is kept as given. *)
Theorem EmojiSuggestion_new_validity (l : list pystr) (m : pystr) :
  (length l < 3 ->
   EmojiSuggestion_new l m
   = raise (ValidationError (ValueError (py "At least 3 emojis required"))))
  /\ (3 <= length l ->
      EmojiSuggestion_new l m = ret {| emojis := firstn 20 l; message := m |})
  /\ (forall s, EmojiSuggestion_new l m = ret s ->
        3 <= length (emojis s) <= 20
        /\ emojis s = firstn 20 l
        /\ (length l <= 20 -> emojis s = l)
        /\ message s = m).
Proof.
  split; [apply EmojiSuggestion_new_short|].
  split; [apply EmojiSuggestion_new_long|].
  intros s Hs.
  destruct (Nat.lt_ge_cases (length l) 3) as [Hlt|Hge].
  - rewrite EmojiSuggestion_new_short in Hs by assumption. discriminate.
  - rewrite EmojiSuggestion_new_long in Hs by assumption.
    assert (E : s = {| emojis := firstn 20 l; message := m |})
      by (unfold ret in Hs; congruence).
    rewrite E. cbn [emojis message].
    rewrite length_firstn.
    repeat split; try lia.
    intros Hle. now apply firstn_whole.
Qed.

(** A run of C2: two emoji are refused; twenty-one are accepted and cut. *)
Lemma EmojiSuggestion_new_validity_run :
  EmojiSuggestion_new (Examples.faces 2) (py "ok")
  = raise (ValidationError (ValueError (py "At least 3 emojis required")))
  /\ EmojiSuggestion_new (Examples.faces 21) (py "ok")
     = ret {| emojis := Examples.faces 20; message := py "ok" |}.
Proof.
  split.
  - apply (proj1 (EmojiSuggestion_new_validity (Examples.faces 2) (py "ok"))).
    simpl. lia.
  - apply (proj1 (proj2 (EmojiSuggestion_new_validity
                           (Examples.faces 21) (py "ok")))).
    simpl. lia.
Defined.

(** C2 as the specification words it fails: a sequence of 21 emoji has a
    length outside 3..20, and its construction does not fail. *)
Lemma EmojiSuggestion_new_21_accepted :
  20 < length (Examples.faces 21)
  /\ raised (EmojiSuggestion_new (Examples.faces 21) (py "ok")) = false
  /\ EmojiSuggestion_new (Examples.faces 21) (py "ok")
     = ret {| emojis := Examples.faces 20; message := py "ok" |}.
Proof.
  split; [vm_compute; lia | split; vm_compute; reflexivity].
Qed.

(** C3. Two emoji are refused with a [ValidationError]; exactly twenty are
    accepted and all twenty kept in order; twenty-one are accepted and the
    suggestion holds exactly the first twenty of them. *)
Theorem EmojiSuggestion_new_boundaries (l : list pystr) (m : pystr) :
  (length l = 2 ->
   EmojiSuggestion_new l m
   = raise (ValidationError (ValueError (py "At least 3 emojis required"))))
  /\ (length l = 20 ->
      EmojiSuggestion_new l m = ret {| emojis := l; message := m |})
  /\ (length l = 21 ->
      EmojiSuggestion_new l m = ret {| emojis := firstn 20 l; message := m |}
      /\ length (firstn 20 l) = 20).
Proof.
  repeat split.
  - intros H. apply EmojiSuggestion_new_short. lia.
  - intros H. rewrite EmojiSuggestion_new_long by lia.
    rewrite firstn_whole by lia. reflexivity.
  - apply EmojiSuggestion_new_long. lia.
  - rewrite length_firstn. lia.
Qed.

(** A run of C3 on 2, 20 and 21 distinct emoji. *)
Lemma EmojiSuggestion_new_boundaries_run :
  EmojiSuggestion_new (Examples.faces 2) (py "ok")
  = raise (ValidationError (ValueError (py "At least 3 emojis required")))
  /\ EmojiSuggestion_new (Examples.faces 20) (py "ok")
     = ret {| emojis := Examples.faces 20; message := py "ok" |}
  /\ EmojiSuggestion_new (Examples.faces 21) (py "ok")
     = ret {| emojis := firstn 20 (Examples.faces 21); message := py "ok" |}.
Proof.
  split; [|split].
  - apply (proj1 (EmojiSuggestion_new_boundaries (Examples.faces 2) (py "ok"))).
    reflexivity.
  - apply (proj1 (proj2 (EmojiSuggestion_new_boundaries
                           (Examples.faces 20) (py "ok")))).
    reflexivity.
  - apply (proj2 (proj2 (EmojiSuggestion_new_boundaries
                           (Examples.faces 21) (py "ok")))).
    reflexivity.
Defined.

(* ------------------------------------------------------------------ *)
(** * The classifier *)

Lemma any_keyword_in_occurs (keywords : list pystr) (text : pystr) :
  any_keyword_in keywords text = true <-> some_keyword_occurs keywords text.
Proof.
  unfold any_keyword_in, some_keyword_occurs.
  rewrite existsb_exists.
  split; intros (kw & Hin & H); exists kw; split; auto;
    now apply contains_occurs.
Qed.

Lemma any_keyword_in_none (keywords : list pystr) (text : pystr) :
  any_keyword_in keywords text = false <-> ~ some_keyword_occurs keywords text.
Proof.
  rewrite <- any_keyword_in_occurs.
  destruct (any_keyword_in keywords text); intuition congruence.
Qed.

(** The scan stops at the first entry that matches. *)
Lemma first_sentiment_stops (pre post : list (pystr * list pystr))
  (s : pystr) (kws : list pystr) (text : pystr) :
  any_keyword_in kws text = true ->
  (forall s' kws', In (s', kws') pre -> any_keyword_in kws' text = false) ->
  first_sentiment (pre ++ (s, kws) :: post) text = Some s.
Proof.
  intros Hhit. induction pre as [|[s' kws'] pre IH]; intros Hpre; simpl.
  - now rewrite Hhit.
  - rewrite (Hpre s' kws') by now left.
    apply IH. intros s'' kws'' Hin. apply (Hpre s''). now right.
Qed.

(** What the scan returns is an entry that matches, after entries that do
    not. *)
Lemma first_sentiment_found (items : list (pystr * list pystr))
  (text s : pystr) :
  first_sentiment items text = Some s ->
  exists pre kws post,
    items = pre ++ (s, kws) :: post
    /\ any_keyword_in kws text = true
    /\ (forall s' kws', In (s', kws') pre -> any_keyword_in kws' text = false).
Proof.
  induction items as [|[s' kws'] items IH]; simpl; [discriminate|].
  destruct (any_keyword_in kws' text) eqn:E; intros H.
  - injection H as <-. exists [], kws', items. repeat split; auto.
    intros ? ? [].
  - destruct (IH H) as (pre & kws & post & -> & Hhit & Hpre).
    exists ((s', kws') :: pre), kws, post. repeat split; auto.
    intros s'' kws'' [Heq|Hin]; [congruence | eauto].
Qed.

Lemma first_sentiment_nothing (items : list (pystr * list pystr))
  (text : pystr) :
  first_sentiment items text = None
  <-> (forall s kws, In (s, kws) items -> any_keyword_in kws text = false).
Proof.
  induction items as [|[s' kws'] items IH]; simpl.
  - split; [intros _ ? ? [] | reflexivity].
  - destruct (any_keyword_in kws' text) eqn:E.
    + split; [discriminate|]. intros H.
      specialize (H s' kws' (or_introl eq_refl)). congruence.
    + rewrite IH. split.
      * intros H s kws [Heq|Hin]; [congruence | eauto].
      * intros H s kws Hin. apply (H s). now right.
Qed.

Lemma no_keyword_by_scan (items : list (pystr * list pystr)) (text : pystr) :
  first_sentiment items text = None ->
  forall s kws, In (s, kws) items -> ~ some_keyword_occurs kws text.
Proof.
  intros H s kws Hin. apply any_keyword_in_none.
  now apply (proj1 (first_sentiment_nothing items text) H s).
Qed.

Lemma sentiment_names :
  map fst (sentiment_map SentimentAnalyzer_init)
  = [happy; sad; love; excited; greeting].
Proof. reflexivity. Qed.

Lemma sentiment_names_NoDup :
  NoDup (map fst (sentiment_map SentimentAnalyzer_init)).
Proof.
  rewrite sentiment_names.
  repeat constructor; simpl; intuition discriminate.
Qed.

Lemma nth_error_app_middle {A : Type} (pre post : list A) (x : A) :
  nth_error (pre ++ x :: post) (length pre) = Some x.
Proof.
  induction pre; simpl; auto.
Qed.

Section ClassifierFacts.

Variable unicode_lower : pystr -> pystr.

Lemma detect_sentiment_found (message0 s : pystr) :
  first_sentiment (sentiment_map SentimentAnalyzer_init)
    (lower unicode_lower message0) = Some s ->
  detect_sentiment unicode_lower SentimentAnalyzer_init message0 = s.
Proof.
  intros H. unfold detect_sentiment. now rewrite H.
Qed.

Lemma detect_sentiment_nothing (message0 : pystr) :
  first_sentiment (sentiment_map SentimentAnalyzer_init)
    (lower unicode_lower message0) = None ->
  detect_sentiment unicode_lower SentimentAnalyzer_init message0
  = if contains (py "?") message0 then confused else neutral.
Proof.
  intros H. unfold detect_sentiment. now rewrite H.
Qed.

(** When the entries at positions [i < j] both match, the answer is a
    matching entry at a position no later than [i]. *)
Lemma detect_sentiment_earliest (message0 : pystr) (i : nat)
  (si : pystr) (kwsi : list pystr) :
  nth_error (sentiment_map SentimentAnalyzer_init) i = Some (si, kwsi) ->
  some_keyword_occurs kwsi (lower unicode_lower message0) ->
  exists k kwsk,
    k <= i
    /\ nth_error (sentiment_map SentimentAnalyzer_init) k
       = Some (detect_sentiment unicode_lower SentimentAnalyzer_init message0,
               kwsk)
    /\ some_keyword_occurs kwsk (lower unicode_lower message0).
Proof.
  intros Hi Hhiti.
  apply any_keyword_in_occurs in Hhiti.
  destruct (first_sentiment (sentiment_map SentimentAnalyzer_init)
              (lower unicode_lower message0)) as [s|] eqn:Hscan.
  - rewrite (detect_sentiment_found _ Hscan).
    destruct (first_sentiment_found _ _ Hscan)
      as (pre & kws & post & Htable & Hhit & Hpre).
    exists (length pre), kws. split; [|split].
    + destruct (Nat.le_gt_cases (length pre) i) as [|Hlt]; [assumption|].
      exfalso.
      rewrite Htable, nth_error_app1 in Hi by assumption.
      apply nth_error_In in Hi.
      rewrite (Hpre _ _ Hi) in Hhiti. discriminate.
    + rewrite Htable. apply nth_error_app_middle.
    + now apply any_keyword_in_occurs.
  - exfalso.
    apply nth_error_In in Hi.
    rewrite (proj1 (first_sentiment_nothing _ _) Hscan _ _ Hi) in Hhiti.
    discriminate.
Qed.

(** Two positions of the table hold two different sentiments. *)
Lemma sentiment_positions (k j : nat) (s : pystr) (kwsk kwsj : list pystr) :
  nth_error (sentiment_map SentimentAnalyzer_init) k = Some (s, kwsk) ->
  nth_error (sentiment_map SentimentAnalyzer_init) j = Some (s, kwsj) ->
  k = j.
Proof.
  intros Hk Hj.
  apply (proj1 (NoDup_nth_error
                  (map fst (sentiment_map SentimentAnalyzer_init)))
           sentiment_names_NoDup).
  - rewrite length_map. apply nth_error_Some. congruence.
  - rewrite !nth_error_map, Hk, Hj. reflexivity.
Qed.

(** C4. The keyword table is declared in the order happy, sad, love,
    excited, greeting. [detect_sentiment] lower-cases the message and
    returns the first sentiment of that order one of whose keywords occurs
    in the lower-cased message: an entry that matches, with no matching
    entry before it, is the answer. Hence, when the entries at positions
    [i < j] both match, the later sentiment is never the answer, the answer
    being a matching entry at a position no later than [i]; and when these
    two are the only entries that match, the answer is the earlier one. *)
Theorem detect_sentiment_table_order (message0 : pystr) :
  map fst (sentiment_map SentimentAnalyzer_init)
  = [happy; sad; love; excited; greeting]
  /\ (forall pre s kws post,
        sentiment_map SentimentAnalyzer_init = pre ++ (s, kws) :: post ->
        some_keyword_occurs kws (lower unicode_lower message0) ->
        (forall s' kws',
            In (s', kws') pre ->
            ~ some_keyword_occurs kws' (lower unicode_lower message0)) ->
        detect_sentiment unicode_lower SentimentAnalyzer_init message0 = s)
  /\ (forall i j si kwsi sj kwsj,
        i < j ->
        nth_error (sentiment_map SentimentAnalyzer_init) i = Some (si, kwsi) ->
        nth_error (sentiment_map SentimentAnalyzer_init) j = Some (sj, kwsj) ->
        some_keyword_occurs kwsi (lower unicode_lower message0) ->
        some_keyword_occurs kwsj (lower unicode_lower message0) ->
        detect_sentiment unicode_lower SentimentAnalyzer_init message0 <> sj
        /\ (exists k kwsk,
               k <= i
               /\ nth_error (sentiment_map SentimentAnalyzer_init) k
                  = Some (detect_sentiment unicode_lower
                            SentimentAnalyzer_init message0, kwsk)
               /\ some_keyword_occurs kwsk (lower unicode_lower message0))
        /\ ((forall k sk kwsk,
                k <> i -> k <> j ->
                nth_error (sentiment_map SentimentAnalyzer_init) k
                = Some (sk, kwsk) ->
                ~ some_keyword_occurs kwsk (lower unicode_lower message0)) ->
            detect_sentiment unicode_lower SentimentAnalyzer_init message0
            = si)).
Proof.
  split; [exact sentiment_names|]. split.
  - intros pre s kws post Htable Hhit Hpre.
    apply detect_sentiment_found. rewrite Htable.
    apply first_sentiment_stops.
    + now apply any_keyword_in_occurs.
    + intros s' kws' Hin. apply any_keyword_in_none. eauto.
  - intros i j si kwsi sj kwsj Hij Hi Hj Hhiti Hhitj.
    destruct (detect_sentiment_earliest message0 i Hi Hhiti)
      as (k & kwsk & Hk & Hnth & Hhitk).
    split; [|split].
    + intros Heq. rewrite Heq in Hnth.
      pose proof (sentiment_positions _ _ Hnth Hj). lia.
    + now exists k, kwsk.
    + intros Hothers.
      destruct (Nat.eq_dec k i) as [->|Hki]; [congruence|].
      exfalso. apply (Hothers k _ kwsk Hki ltac:(lia) Hnth Hhitk).
Qed.

(** C5. When no keyword of any sentiment occurs in the lower-cased
    message, [detect_sentiment] answers confused if the message holds a
    question mark and neutral if it holds none. *)
Theorem detect_sentiment_no_keyword (message0 : pystr) :
  (forall s kws,
      In (s, kws) (sentiment_map SentimentAnalyzer_init) ->
      ~ some_keyword_occurs kws (lower unicode_lower message0)) ->
  (In question_mark message0 ->
   detect_sentiment unicode_lower SentimentAnalyzer_init message0 = confused)
  /\ (~ In question_mark message0 ->
      detect_sentiment unicode_lower SentimentAnalyzer_init message0
      = neutral).
Proof.
  intros Hnone.
  assert (Hscan : first_sentiment (sentiment_map SentimentAnalyzer_init)
                    (lower unicode_lower message0) = None).
  { apply first_sentiment_nothing. intros s kws Hin.
    apply any_keyword_in_none. eauto. }
  rewrite (detect_sentiment_nothing _ Hscan).
  change (py "?") with [question_mark].
  split; intros H.
  - apply contains_char in H. now rewrite H.
  - destruct (contains [question_mark] message0) eqn:E; [|reflexivity].
    apply contains_char in E. contradiction.
Qed.

End ClassifierFacts.

(** A run of C4: a message with a keyword of happy and a keyword of sad,
    and of no other sentiment, is classified as happy, the earlier of the
    two. *)
Lemma detect_sentiment_table_order_run :
  detect_sentiment Examples.plain_unicode_lower SentimentAnalyzer_init
    (py "Sad news, but a GOOD day")
  = happy.
Proof.
  assert (Hhappy : some_keyword_occurs
                     [py "happy"; py "joy"; py "good"; py "great"; py "awesome"]
                     (lower Examples.plain_unicode_lower
                        (py "Sad news, but a GOOD day")))
    by (apply any_keyword_in_occurs; reflexivity).
  assert (Hsad : some_keyword_occurs
                   [py "sad"; py "bad"; py "upset"; py "unhappy"]
                   (lower Examples.plain_unicode_lower
                      (py "Sad news, but a GOOD day")))
    by (apply any_keyword_in_occurs; reflexivity).
  destruct (proj2 (proj2 (detect_sentiment_table_order
                            Examples.plain_unicode_lower
                            (py "Sad news, but a GOOD day")))
              0 1 happy _ sad _ ltac:(lia) eq_refl eq_refl Hhappy Hsad)
    as (_ & _ & Honly).
  apply Honly.
  intros k sk kwsk H0 H1 Hk.
  apply any_keyword_in_none.
  destruct k as [|[|[|[|[|k]]]]]; try congruence;
    try (injection Hk as <- <-; reflexivity).
  destruct k; discriminate.
Defined.

(** A run of C5: no keyword occurs in either message; the one with a
    question mark is confused, the other neutral. *)
Lemma detect_sentiment_no_keyword_run :
  detect_sentiment Examples.plain_unicode_lower SentimentAnalyzer_init
    (py "wat is dis?") = confused
  /\ detect_sentiment Examples.plain_unicode_lower SentimentAnalyzer_init
       (py "banana") = neutral.
Proof.
  split.
  - apply (detect_sentiment_no_keyword Examples.plain_unicode_lower
             (py "wat is dis?")).
    + apply no_keyword_by_scan. reflexivity.
    + apply contains_char. reflexivity.
  - apply (detect_sentiment_no_keyword Examples.plain_unicode_lower
             (py "banana")).
    + apply no_keyword_by_scan. reflexivity.
    + intros H. apply contains_char in H. discriminate.
Defined.

(* ------------------------------------------------------------------ *)
(** * Strings: [strip] and [split] *)

Lemma is_blank_app (u v : pystr) :
  is_blank (u ++ v) = is_blank u && is_blank v.
Proof. apply forallb_app. Qed.

Lemma is_blank_rev (w : pystr) : is_blank (rev w) = is_blank w.
Proof.
  induction w as [|c w IH]; simpl; [reflexivity|].
  rewrite is_blank_app, IH. simpl. rewrite andb_true_r. apply andb_comm.
Qed.

(** Leading white space does not open a token. *)
Lemma split_from_blank (w s : pystr) :
  is_blank w = true -> split_from [] (w ++ s) = split_from [] s.
Proof.
  induction w as [|c w IH]; simpl; [reflexivity|].
  intros H. apply andb_prop in H as [Hc Hw]. rewrite Hc. auto.
Qed.

(** Code points that are not white space extend the token being read. *)
Lemma split_from_token (cur t s : pystr) :
  forallb (fun c => negb (isspace c)) t = true ->
  split_from cur (t ++ s) = split_from (cur ++ t) s.
Proof.
  revert cur. induction t as [|c t IH]; intros cur; simpl.
  - now rewrite app_nil_r.
  - intros H. apply andb_prop in H as [Hc Ht].
    apply negb_true_iff in Hc. rewrite Hc, IH by assumption.
    now rewrite <- app_assoc.
Qed.

(** A separator closes the token being read. *)
Lemma split_from_gap (cur g s : pystr) :
  is_empty cur = false -> is_gap g = true ->
  split_from cur (g ++ s) = cur :: split_from [] s.
Proof.
  intros Hcur Hg. apply andb_prop in Hg as [Hne Hblank].
  destruct g as [|c g]; [discriminate|].
  simpl in Hblank |- *. apply andb_prop in Hblank as [Hc Hrest].
  rewrite Hc, Hcur. f_equal. now apply split_from_blank.
Qed.

(** Trailing white space adds nothing. *)
Lemma split_from_trail (cur s w : pystr) :
  is_blank w = true -> split_from cur (s ++ w) = split_from cur s.
Proof.
  intros Hw. revert cur. induction s as [|c s IH]; intros cur; simpl.
  - destruct w as [|d w]; [reflexivity|].
    simpl in Hw |- *. apply andb_prop in Hw as [Hd Hrest]. rewrite Hd.
    rewrite <- (app_nil_r w), (split_from_blank w [] Hrest). simpl.
    now destruct (is_empty cur).
  - destruct (isspace c); [destruct (is_empty cur)|]; now rewrite ?IH.
Qed.

Lemma lstrip_blank (s : pystr) :
  exists w, is_blank w = true /\ s = w ++ lstrip s.
Proof.
  induction s as [|c s (w & Hw & IH)]; simpl.
  - now exists [].
  - destruct (isspace c) eqn:Hc.
    + exists (c :: w). simpl. rewrite Hc, Hw. split; [reflexivity|].
      now f_equal.
    + now exists [].
Qed.

Lemma rstrip_blank (s : pystr) :
  exists w, is_blank w = true /\ s = rstrip s ++ w.
Proof.
  destruct (lstrip_blank (rev s)) as (w & Hw & E).
  exists (rev w). split; [now rewrite is_blank_rev|].
  unfold rstrip. rewrite <- rev_app_distr, <- E. symmetry. apply rev_involutive.
Qed.

(** [strip] before [split] changes nothing. *)
Lemma split_strip (s : pystr) : split (strip s) = split s.
Proof.
  unfold split, strip.
  destruct (rstrip_blank (lstrip s)) as (w & Hw & E).
  destruct (lstrip_blank s) as (v & Hv & F).
  rewrite F at 2. rewrite (split_from_blank v _ Hv).
  rewrite E at 2. now rewrite (split_from_trail [] _ w Hw).
Qed.

Lemma is_token_inv (t : pystr) :
  is_token t = true ->
  is_empty t = false /\ forallb (fun c => negb (isspace c)) t = true.
Proof.
  intros H. apply andb_prop in H as [Hne Hns].
  now apply negb_true_iff in Hne.
Qed.

(** The tokens after the one being read, separator by separator. *)
Lemma split_from_rest (rest : list (pystr * pystr)) (cur trail : pystr) :
  is_empty cur = false ->
  forallb (fun gt => is_gap (fst gt) && is_token (snd gt)) rest = true ->
  is_blank trail = true ->
  split_from cur (flat_map (fun gt => fst gt ++ snd gt) rest ++ trail)
  = cur :: map snd rest.
Proof.
  intros Hcur Hrest Htrail. revert cur Hcur.
  induction rest as [|[g t] rest IH]; intros cur Hcur; simpl.
  - pose proof (split_from_trail cur [] trail Htrail) as E.
    simpl in E. rewrite E. now rewrite Hcur.
  - simpl in Hrest. apply andb_prop in Hrest as [Hgt Hrest'].
    apply andb_prop in Hgt as [Hg Ht].
    destruct (is_token_inv _ Ht) as [Hne Hns].
    rewrite <- !app_assoc.
    rewrite (split_from_gap _ _ _ Hcur Hg).
    rewrite (split_from_token [] _ _ Hns). simpl.
    now rewrite (IH Hrest' t Hne).
Qed.

(** [split] gives back the tokens of a spaced text, in their order. *)
Lemma split_spaced (lead first : pystr) (rest : list (pystr * pystr))
  (trail : pystr) :
  is_blank lead = true ->
  is_token first = true ->
  forallb (fun gt => is_gap (fst gt) && is_token (snd gt)) rest = true ->
  is_blank trail = true ->
  split (spaced lead first rest trail) = first :: map snd rest.
Proof.
  intros Hlead Hfirst Hrest Htrail.
  destruct (is_token_inv _ Hfirst) as [Hne Hns].
  unfold split, spaced.
  rewrite (split_from_blank lead _ Hlead).
  rewrite (split_from_token [] _ _ Hns). simpl.
  now apply split_from_rest.
Qed.

(** Whatever the text, what [split_from] emits are tokens, and together
    they are the code points of the text that are not white space, in the
    order of the text. *)
Lemma split_from_tokens (s cur : pystr) :
  forallb (fun c => negb (isspace c)) cur = true ->
  Forall (fun t => is_token t = true) (split_from cur s)
  /\ concat (split_from cur s)
     = cur ++ filter (fun c => negb (isspace c)) s.
Proof.
  revert cur. induction s as [|c s IH]; intros cur Hcur; simpl.
  - destruct cur as [|d cur]; simpl; [now split|].
    split; [|now rewrite !app_nil_r].
    constructor; [|constructor]. unfold is_token. simpl in *. exact Hcur.
  - destruct (isspace c) eqn:Hc; simpl.
    + destruct (IH [] eq_refl) as [Htok Hcat].
      destruct cur as [|d cur]; simpl; [now split|].
      split; [|now rewrite Hcat].
      constructor; [|assumption]. unfold is_token. simpl in *. exact Hcur.
    + assert (Hcur' : forallb (fun c => negb (isspace c)) (cur ++ [c]) = true).
      { rewrite forallb_app, Hcur. simpl. now rewrite Hc. }
      destruct (IH _ Hcur') as [Htok Hcat].
      split; [assumption|]. now rewrite Hcat, <- app_assoc.
Qed.

Lemma split_tokens (s : pystr) :
  Forall (fun t => is_token t = true) (split s)
  /\ concat (split s) = filter (fun c => negb (isspace c)) s.
Proof. apply (split_from_tokens s []). reflexivity. Qed.

(* ------------------------------------------------------------------ *)
(** * The emoji library *)

Lemma pystr_eqb_eq (a b : pystr) : PyStr.eqb a b = true <-> a = b.
Proof.
  unfold PyStr.eqb. destruct (list_eq_dec N.eq_dec a b); split; congruence.
Qed.

Lemma dict_get_In {V : Type} (d : list (pystr * V)) (k : pystr) (v : V) :
  dict_get d k = Some v -> In (k, v) d.
Proof.
  induction d as [|[k' v'] d IH]; simpl; [discriminate|].
  destruct (PyStr.eqb k' k) eqn:E.
  - apply pystr_eqb_eq in E. intros H. left. congruence.
  - intros H. right. auto.
Qed.

Lemma emoji_library_lengths :
  Forall (fun kv => length (snd kv) = 10)
    (emoji_library SentimentAnalyzer_init).
Proof. repeat constructor. Qed.

Lemma emoji_library_neutral :
  exists l, dict_get (emoji_library SentimentAnalyzer_init) neutral = Some l
            /\ length l = 10.
Proof. eexists. split; reflexivity. Qed.

Lemma get_emojis_lookup (self : SentimentAnalyzer) (s : pystr)
  (d : list pystr) :
  dict_get (emoji_library self) neutral = Some d ->
  get_emojis self s = ret (dict_get_default (emoji_library self) s d).
Proof.
  intros Hd. unfold get_emojis, dict_getitem. fold neutral.
  now rewrite Hd.
Qed.

(** The lookup never raises, and what it returns has ten emoji. *)
Lemma get_emojis_ten (s : pystr) :
  exists l, get_emojis SentimentAnalyzer_init s = ret l /\ length l = 10.
Proof.
  destruct emoji_library_neutral as (d & Hd & Hlen).
  rewrite (get_emojis_lookup _ s Hd). unfold dict_get_default.
  destruct (dict_get (emoji_library SentimentAnalyzer_init) s) as [l|] eqn:E.
  - exists l. split; [reflexivity|].
    apply dict_get_In in E.
    apply (proj1 (Forall_forall _ _) emoji_library_lengths _ E).
  - now exists d.
Qed.

(** C6. For every sentiment -- the five of the keyword table, neutral and
    confused, and indeed any string -- the library lookup [get_emojis]
    returns a list of at least 3 emoji (every list the table holds has at
    least 3, and a sentiment without an entry is served the neutral list),
    so building the fallback suggestion from it does not fail. *)
Theorem get_emojis_enough (s message0 : pystr) :
  (forall k v, In (k, v) (emoji_library SentimentAnalyzer_init) ->
               3 <= length v)
  /\ exists l,
       get_emojis SentimentAnalyzer_init s = ret l
       /\ 3 <= length l
       /\ EmojiSuggestion_new l message0
          = ret {| emojis := l; message := message0 |}.
Proof.
  split.
  - intros k v Hin.
    pose proof (proj1 (Forall_forall _ _) emoji_library_lengths _ Hin) as H.
    simpl in H. lia.
  - destruct (get_emojis_ten s) as (l & Hl & Hlen).
    exists l. repeat split; [assumption | lia |].
    rewrite EmojiSuggestion_new_long by lia.
    now rewrite firstn_whole by lia.
Qed.

(* ------------------------------------------------------------------ *)
(** * The orchestrator *)

Lemma EmojiSuggestion_new_returned (l : list pystr) (m : pystr)
  (s : EmojiSuggestion) :
  EmojiSuggestion_new l m = ret s ->
  3 <= length l /\ s = {| emojis := firstn 20 l; message := m |}.
Proof.
  intros H. destruct (Nat.lt_ge_cases (length l) 3) as [Hlt|Hge].
  - rewrite EmojiSuggestion_new_short in H by assumption. discriminate.
  - rewrite EmojiSuggestion_new_long in H by assumption.
    unfold ret in H. split; [assumption | congruence].
Qed.

Section AgentFacts.

Variable unicode_lower : pystr -> pystr.
Variable exc_str : pyexc -> pystr.

(** The client fails: the [try] block fails with the client's exception. *)
Lemma suggest_body_client_raised (g : pystr -> result pyval)
  (message0 : pystr) (e : pyexc) :
  g (suggest_prompt
       (detect_sentiment unicode_lower SentimentAnalyzer_init message0)
       message0) = raise e ->
  suggest_body unicode_lower (agent_with g) message0 = raise e.
Proof.
  intros H. unfold suggest_body. simpl. now rewrite H.
Qed.

(** The client returns text: the suggestion is built from the first 15
    tokens of the text. *)
Lemma suggest_body_text (g : pystr -> result pyval) (message0 r : pystr) :
  g (suggest_prompt
       (detect_sentiment unicode_lower SentimentAnalyzer_init message0)
       message0) = ret (PStr r) ->
  suggest_body unicode_lower (agent_with g) message0
  = EmojiSuggestion_new (firstn 15 (split r)) message0.
Proof.
  intros H. unfold suggest_body. simpl. rewrite H. simpl.
  now rewrite split_strip.
Qed.

(** The [try] block returns only a suggestion built from returned text. *)
Lemma suggest_body_returned (g : pystr -> result pyval) (message0 : pystr)
  (s : EmojiSuggestion) :
  suggest_body unicode_lower (agent_with g) message0 = ret s ->
  exists r,
    g (suggest_prompt
         (detect_sentiment unicode_lower SentimentAnalyzer_init message0)
         message0) = ret (PStr r)
    /\ EmojiSuggestion_new (firstn 15 (split r)) message0 = ret s.
Proof.
  intros H.
  destruct (g (suggest_prompt
                 (detect_sentiment unicode_lower SentimentAnalyzer_init message0)
                 message0)) as [e|v] eqn:Hg.
  - rewrite (suggest_body_client_raised _ _ Hg) in H. discriminate.
  - destruct v as [| | | |r| |];
      try (unfold suggest_body in H; simpl in H; rewrite Hg in H;
           discriminate).
    exists r. split; [reflexivity|].
    now rewrite <- (suggest_body_text _ _ Hg).
Qed.

(** The [except] block returns the library's suggestion. *)
Lemma suggest_fallback_returns (g : pystr -> result pyval)
  (message0 : pystr) :
  exists l,
    get_emojis SentimentAnalyzer_init
      (detect_sentiment unicode_lower SentimentAnalyzer_init message0) = ret l
    /\ length l = 10
    /\ suggest_fallback unicode_lower (agent_with g) message0
       = ret {| emojis := l; message := message0 |}.
Proof.
  destruct (get_emojis_ten
              (detect_sentiment unicode_lower SentimentAnalyzer_init message0))
    as (l & Hl & Hlen).
  exists l. repeat split; try assumption.
  unfold suggest_fallback, agent_with. cbn [sentiment].
  rewrite Hl. unfold ret at 1. cbn [bind].
  rewrite EmojiSuggestion_new_long by lia.
  now rewrite firstn_whole by lia.
Qed.

Lemma suggest_emojis_raised (self : AIAgent) (message0 : pystr) (e : pyexc) :
  suggest_body unicode_lower self message0 = raise e ->
  utf8_encodable (fallback_line exc_str e) = true ->
  suggest_emojis unicode_lower exc_str self message0
  = ([fallback_line exc_str e], suggest_fallback unicode_lower self message0).
Proof.
  intros H Henc. unfold suggest_emojis. rewrite H. unfold raise at 1.
  cbv beta iota. now rewrite Henc.
Qed.

Lemma suggest_emojis_print_failed (self : AIAgent) (message0 : pystr)
  (e : pyexc) :
  suggest_body unicode_lower self message0 = raise e ->
  utf8_encodable (fallback_line exc_str e) = false ->
  suggest_emojis unicode_lower exc_str self message0
  = ([], raise UnicodeEncodeError).
Proof.
  intros H Henc. unfold suggest_emojis. rewrite H. unfold raise at 1.
  cbv beta iota. now rewrite Henc.
Qed.

Lemma suggest_emojis_returned (self : AIAgent) (message0 : pystr)
  (s : EmojiSuggestion) :
  suggest_body unicode_lower self message0 = ret s ->
  suggest_emojis unicode_lower exc_str self message0 = ([], ret s).
Proof.
  intros H. unfold suggest_emojis. now rewrite H.
Qed.

(** C1, as the code has it. Whatever the client does and whatever the
    message, every failure of the [try] block -- a failure of the client is
    one, and so is the validation error of a generated list with fewer than
    3 tokens -- is caught, and the fallback construction itself always
    succeeds: it gives the library's list for the detected sentiment, with
    the message and between 3 and 20 emoji. [suggest_emojis] returns that
    suggestion provided the line its [except] block prints first can be
    written to standard output; when the [try] block succeeds it returns the
    generated suggestion and prints nothing. The print is not guarded: when
    the line cannot be written, [UnicodeEncodeError] leaves
    [suggest_emojis]. *)
Theorem suggest_emojis_absorbs_failures (g : pystr -> result pyval)
  (message0 : pystr) :
  (forall s,
      suggest_body unicode_lower (agent_with g) message0 = ret s ->
      suggest_emojis unicode_lower exc_str (agent_with g) message0
      = ([], ret s)
      /\ message s = message0
      /\ 3 <= length (emojis s) <= 20)
  /\ (exists s,
         suggest_fallback unicode_lower (agent_with g) message0 = ret s
         /\ message s = message0
         /\ 3 <= length (emojis s) <= 20
         /\ get_emojis SentimentAnalyzer_init
              (detect_sentiment unicode_lower SentimentAnalyzer_init message0)
            = ret (emojis s)
         /\ forall e,
              suggest_body unicode_lower (agent_with g) message0 = raise e ->
              (utf8_encodable (fallback_line exc_str e) = true ->
               suggest_emojis unicode_lower exc_str (agent_with g) message0
               = ([fallback_line exc_str e], ret s))
              /\ (utf8_encodable (fallback_line exc_str e) = false ->
                  suggest_emojis unicode_lower exc_str (agent_with g) message0
                  = ([], raise UnicodeEncodeError)))
  /\ (forall e,
         g (suggest_prompt
              (detect_sentiment unicode_lower SentimentAnalyzer_init message0)
              message0) = raise e ->
         suggest_body unicode_lower (agent_with g) message0 = raise e)
  /\ (forall r,
         g (suggest_prompt
              (detect_sentiment unicode_lower SentimentAnalyzer_init message0)
              message0) = ret (PStr r) ->
         length (split r) < 3 ->
         suggest_body unicode_lower (agent_with g) message0
         = raise (ValidationError
                    (ValueError (py "At least 3 emojis required")))).
Proof.
  split; [|split; [|split]].
  - intros s Hbody. rewrite (suggest_emojis_returned _ _ Hbody).
    destruct (suggest_body_returned _ _ Hbody) as (r & _ & Hnew).
    destruct (EmojiSuggestion_new_returned _ _ Hnew) as [Hge ->].
    cbn [emojis message]. rewrite !length_firstn in *.
    split; [reflexivity|]. split; [reflexivity | lia].
  - destruct (suggest_fallback_returns g message0) as (l & Hl & Hlen & Hfb).
    exists {| emojis := l; message := message0 |}. cbn [emojis message].
    split; [assumption|]. split; [reflexivity|]. split; [lia|].
    split; [assumption|].
    intros e Hbody. split; intros Henc.
    + now rewrite (suggest_emojis_raised _ _ Hbody Henc), Hfb.
    + exact (suggest_emojis_print_failed _ _ Hbody Henc).
  - intros e. apply suggest_body_client_raised.
  - intros r Hg Hlen. rewrite (suggest_body_text _ _ Hg).
    apply EmojiSuggestion_new_short. rewrite length_firstn. lia.
Qed.

(** C7. On the generation path the returned text is split at white space:
    what [split] gives are tokens (not empty, free of white space) that
    together are the code points of the text that are not white space, in
    the order of the text. The suggestion is built from the first 15 tokens
    at most: with at least 3 tokens it holds exactly the first 15 (all of
    them when there are fewer) in their order, and nothing is printed. In
    particular, for a text of 18 tokens -- [first] and the 17 of [rest],
    separated by white space, with any white space before and after -- the
    tokens found are these 18 and the suggestion holds exactly the first 15
    of them. *)
Theorem suggest_emojis_first_15_tokens (g : pystr -> result pyval)
  (message0 r : pystr) :
  g (suggest_prompt
       (detect_sentiment unicode_lower SentimentAnalyzer_init message0)
       message0) = ret (PStr r) ->
  suggest_body unicode_lower (agent_with g) message0
  = EmojiSuggestion_new (firstn 15 (split r)) message0
  /\ Forall (fun t => is_token t = true) (split r)
  /\ concat (split r) = filter (fun c => negb (isspace c)) r
  /\ (3 <= length (split r) ->
      suggest_emojis unicode_lower exc_str (agent_with g) message0
      = ([], ret {| emojis := firstn 15 (split r); message := message0 |}))
  /\ (forall lead first rest trail,
         r = spaced lead first rest trail ->
         is_blank lead = true ->
         is_token first = true ->
         forallb (fun gt => is_gap (fst gt) && is_token (snd gt)) rest = true ->
         is_blank trail = true ->
         length rest = 17 ->
         split r = first :: map snd rest
         /\ suggest_emojis unicode_lower exc_str (agent_with g) message0
            = ([], ret {| emojis := firstn 15 (first :: map snd rest);
                          message := message0 |})
         /\ length (firstn 15 (first :: map snd rest)) = 15).
Proof.
  intros Hg.
  assert (Hmany : 3 <= length (split r) ->
            suggest_emojis unicode_lower exc_str (agent_with g) message0
            = ([], ret {| emojis := firstn 15 (split r);
                          message := message0 |})).
  { intros Hlen. apply suggest_emojis_returned.
    rewrite (suggest_body_text _ _ Hg).
    rewrite EmojiSuggestion_new_long by (rewrite length_firstn; lia).
    now rewrite firstn_firstn. }
  split; [exact (suggest_body_text _ _ Hg)|].
  split; [apply split_tokens|]. split; [apply split_tokens|].
  split; [exact Hmany|].
  intros lead first rest trail Hr Hlead Hfirst Hrest Htrail H17.
  assert (Hsplit : split r = first :: map snd rest)
    by (rewrite Hr; now apply split_spaced).
  assert (Hn : length (first :: map snd rest) = 18)
    by (simpl; rewrite length_map; lia).
  split; [exact Hsplit|]. split.
  - rewrite <- Hsplit. apply Hmany. rewrite Hsplit, Hn. lia.
  - rewrite length_firstn, Hn. reflexivity.
Qed.

Lemma emoji_library_happy :
  exists l, dict_get (emoji_library SentimentAnalyzer_init) happy = Some l
            /\ get_emojis SentimentAnalyzer_init happy = ret l
            /\ length l = 10.
Proof. eexists. repeat split; reflexivity. Qed.

Lemma detect_sentiment_happy_today :
  detect_sentiment unicode_lower SentimentAnalyzer_init
    (py "I am so happy today") = happy.
Proof. reflexivity. Qed.

Lemma suggest_fallback_happy_today (g : pystr -> result pyval)
  (l : list pystr) :
  get_emojis SentimentAnalyzer_init happy = ret l ->
  length l = 10 ->
  suggest_fallback unicode_lower (agent_with g) (py "I am so happy today")
  = ret {| emojis := l; message := py "I am so happy today" |}.
Proof.
  intros Hget Hlen. unfold suggest_fallback, agent_with. cbn [sentiment].
  rewrite detect_sentiment_happy_today, Hget.
  unfold ret at 1. cbn [bind].
  rewrite EmojiSuggestion_new_long by lia.
  now rewrite firstn_whole by lia.
Qed.

(** C8, as the code has it. With a client that fails on every call,
    [suggest_emojis] on "I am so happy today" catches the failure. Provided
    the line that names the failure can be written to standard output, it
    prints that line and returns the suggestion whose emoji are the
    library's entry for happy and whose message is "I am so happy today",
    unchanged. When the line cannot be written, the print's
    [UnicodeEncodeError] is propagated instead. *)
Theorem suggest_emojis_happy_fallback (g : pystr -> result pyval) :
  (forall prompt, raised (g prompt) = true) ->
  exists happy_emojis e,
    dict_get (emoji_library SentimentAnalyzer_init) happy = Some happy_emojis
    /\ g (suggest_prompt happy (py "I am so happy today")) = raise e
    /\ (utf8_encodable (fallback_line exc_str e) = true ->
        suggest_emojis unicode_lower exc_str (agent_with g)
          (py "I am so happy today")
        = ([fallback_line exc_str e],
           ret {| emojis := happy_emojis;
                  message := py "I am so happy today" |}))
    /\ (utf8_encodable (fallback_line exc_str e) = false ->
        suggest_emojis unicode_lower exc_str (agent_with g)
          (py "I am so happy today")
        = ([], raise UnicodeEncodeError)).
Proof.
  intros Hfail.
  destruct emoji_library_happy as (l & Hl & Hget & Hlen).
  pose proof (Hfail (suggest_prompt happy (py "I am so happy today"))) as Hg.
  destruct (g (suggest_prompt happy (py "I am so happy today")))
    as [e|v] eqn:Eg; [|discriminate].
  assert (Hbody : suggest_body unicode_lower (agent_with g)
                    (py "I am so happy today") = raise e).
  { apply suggest_body_client_raised.
    now rewrite detect_sentiment_happy_today. }
  exists l, e. split; [assumption|]. split; [reflexivity|].
  split; intros Henc.
  - rewrite (suggest_emojis_raised _ _ Hbody Henc).
    now rewrite (suggest_fallback_happy_today g Hget Hlen).
  - exact (suggest_emojis_print_failed _ _ Hbody Henc).
Qed.

End AgentFacts.

(** A run of C7: eighteen emoji separated by single spaces; the first
    fifteen come back. *)
Lemma suggest_emojis_first_15_tokens_run :
  split Examples.eighteen_text = Examples.faces 18
  /\ suggest_emojis Examples.plain_unicode_lower Examples.plain_exc_str
       (agent_with Examples.eighteen_generate) (py "party time")
     = ([], ret {| emojis := Examples.faces 15; message := py "party time" |})
  /\ length (Examples.faces 15) = 15.
Proof.
  exact (proj2 (proj2 (proj2 (proj2
           (suggest_emojis_first_15_tokens
              Examples.plain_unicode_lower Examples.plain_exc_str
              Examples.eighteen_generate (py "party time")
              (r := Examples.eighteen_text) eq_refl))))
           [] [0x1f600%N] Examples.eighteen_rest []
           eq_refl eq_refl eq_refl eq_refl eq_refl eq_refl).
Defined.

(** A run of C1: the client fails with a message that can be printed;
    the line is printed and the library's suggestion returned. *)
Lemma suggest_emojis_absorbs_failures_run :
  exists s,
    suggest_emojis Examples.plain_unicode_lower Examples.plain_exc_str
      (agent_with Examples.failing_generate) (py "hello")
    = ([py "Using fallback emojis due to: API request failed: unreachable"],
       ret s)
    /\ message s = py "hello"
    /\ 3 <= length (emojis s) <= 20.
Proof.
  destruct (proj1 (proj2 (suggest_emojis_absorbs_failures
                            Examples.plain_unicode_lower
                            Examples.plain_exc_str
                            Examples.failing_generate (py "hello"))))
    as (s & _ & Hmsg & Hlen & _ & Hrun).
  exists s. split; [|split; assumption].
  exact (proj1 (Hrun (ValueError (py "API request failed: unreachable"))
                  eq_refl) eq_refl).
Defined.

(** C1 as the specification words it fails: a client whose failure carries
    a lone surrogate makes the line of the [except] block unprintable, and
    [suggest_emojis] raises. *)
Lemma suggest_emojis_print_raises :
  Scenarios.surrogate_failing_generate
    (suggest_prompt greeting (py "hello")) = raise (ValueError [0xd800%N])
  /\ utf8_encodable
       (fallback_line Examples.plain_exc_str (ValueError [0xd800%N])) = false
  /\ suggest_emojis Examples.plain_unicode_lower Examples.plain_exc_str
       (agent_with Scenarios.surrogate_failing_generate) (py "hello")
     = ([], raise UnicodeEncodeError).
Proof.
  split; [reflexivity|]. split; reflexivity.
Qed.

(** A run of C8 with a client that always raises a printable failure. *)
Lemma suggest_emojis_happy_fallback_run :
  exists happy_emojis,
    dict_get (emoji_library SentimentAnalyzer_init) happy = Some happy_emojis
    /\ suggest_emojis Examples.plain_unicode_lower Examples.plain_exc_str
         (agent_with Examples.failing_generate) (py "I am so happy today")
       = ([py "Using fallback emojis due to: API request failed: unreachable"],
          ret {| emojis := happy_emojis;
                 message := py "I am so happy today" |}).
Proof.
  destruct (suggest_emojis_happy_fallback
              Examples.plain_unicode_lower Examples.plain_exc_str
              Examples.failing_generate (fun prompt => eq_refl))
    as (l & e & Hl & He & Hprinted & _).
  exists l. split; [exact Hl|].
  injection He as <-. exact (Hprinted eq_refl).
Defined.

(** C8 as the specification words it fails: the client fails on every
    call, with a lone surrogate as message, and [suggest_emojis] on
    "I am so happy today" propagates the print's exception. *)
Lemma suggest_emojis_happy_print_raises :
  raised (Scenarios.surrogate_failing_generate
            (suggest_prompt happy (py "I am so happy today"))) = true
  /\ suggest_emojis Examples.plain_unicode_lower Examples.plain_exc_str
       (agent_with Scenarios.surrogate_failing_generate)
       (py "I am so happy today")
     = ([], raise UnicodeEncodeError).
Proof.
  split; reflexivity.
Qed.

(** C10. The library has no entry for confused, and [get_emojis] serves any
    sentiment without an entry the list stored under neutral. So the
    fallback of a message classified as confused builds its suggestion from
    the neutral emoji, and [suggest_emojis] returns that suggestion when the
    [try] block fails and the line naming the failure can be printed. *)
Theorem get_emojis_confused_is_neutral :
  exists neutral_emojis,
    dict_get (emoji_library SentimentAnalyzer_init) neutral
    = Some neutral_emojis
    /\ (forall s,
           dict_get (emoji_library SentimentAnalyzer_init) s = None ->
           get_emojis SentimentAnalyzer_init s = ret neutral_emojis)
    /\ dict_get (emoji_library SentimentAnalyzer_init) confused = None
    /\ get_emojis SentimentAnalyzer_init confused = ret neutral_emojis
    /\ (forall unicode_lower g message0,
           detect_sentiment unicode_lower SentimentAnalyzer_init message0
           = confused ->
           suggest_fallback unicode_lower (agent_with g) message0
           = ret {| emojis := neutral_emojis; message := message0 |})
    /\ (forall unicode_lower exc_str g message0 e,
           detect_sentiment unicode_lower SentimentAnalyzer_init message0
           = confused ->
           suggest_body unicode_lower (agent_with g) message0 = raise e ->
           utf8_encodable (fallback_line exc_str e) = true ->
           suggest_emojis unicode_lower exc_str (agent_with g) message0
           = ([fallback_line exc_str e],
              ret {| emojis := neutral_emojis; message := message0 |})).
Proof.
  destruct emoji_library_neutral as (d & Hd & Hlen).
  assert (Habsent : forall s,
             dict_get (emoji_library SentimentAnalyzer_init) s = None ->
             get_emojis SentimentAnalyzer_init s = ret d).
  { intros s Hs. rewrite (get_emojis_lookup _ s Hd).
    unfold dict_get_default. now rewrite Hs. }
  assert (Hconfused :
            dict_get (emoji_library SentimentAnalyzer_init) confused = None)
    by reflexivity.
  assert (Hfb : forall unicode_lower g message0,
             detect_sentiment unicode_lower SentimentAnalyzer_init message0
             = confused ->
             suggest_fallback unicode_lower (agent_with g) message0
             = ret {| emojis := d; message := message0 |}).
  { intros unicode_lower g message0 Hdetect.
    unfold suggest_fallback, agent_with. cbn [sentiment].
    rewrite Hdetect, (Habsent _ Hconfused).
    unfold ret at 1. cbn [bind].
    rewrite EmojiSuggestion_new_long by lia.
    now rewrite firstn_whole by lia. }
  exists d. split; [assumption|]. split; [assumption|].
  split; [assumption|]. split; [now apply Habsent|].
  split; [exact Hfb|].
  intros unicode_lower exc_str g message0 e Hdetect Hbody Henc.
  rewrite (suggest_emojis_raised _ exc_str _ _ Hbody Henc).
  now rewrite (Hfb _ g _ Hdetect).
Qed.

(** A run of C10: a question with no keyword, and a client that fails. *)
Lemma get_emojis_confused_is_neutral_run :
  exists neutral_emojis,
    dict_get (emoji_library SentimentAnalyzer_init) neutral
    = Some neutral_emojis
    /\ suggest_emojis Examples.plain_unicode_lower Examples.plain_exc_str
         (agent_with Examples.failing_generate) (py "wat is dis?")
       = ([py "Using fallback emojis due to: API request failed: unreachable"],
          ret {| emojis := neutral_emojis; message := py "wat is dis?" |}).
Proof.
  destruct get_emojis_confused_is_neutral as (d & Hd & _ & _ & _ & _ & Hrun).
  exists d. split; [exact Hd|].
  exact (Hrun Examples.plain_unicode_lower Examples.plain_exc_str
           Examples.failing_generate (py "wat is dis?")
           (ValueError (py "API request failed: unreachable"))
           eq_refl eq_refl eq_refl).
Defined.

(* ------------------------------------------------------------------ *)
(** * The remote client *)

Lemma getitem_str_returned (v : pyval) (key : pystr) (x : pyval) :
  getitem_str v key = ret x
  <-> exists items, v = PDict items /\ dict_get items key = Some x.
Proof.
  split.
  - destruct v as [| | | | | |items]; try discriminate.
    unfold getitem_str, dict_getitem.
    destruct (dict_get items key) as [y|] eqn:E; [|discriminate].
    intros H. exists items. split; [reflexivity|].
    unfold ret in H. congruence.
  - intros (items & -> & H). unfold getitem_str, dict_getitem. now rewrite H.
Qed.

Lemma seq_index_head {A : Type} (x : A) (l : list A) :
  seq_index (x :: l) 0 = Some x.
Proof.
  unfold seq_index. cbn [length]. rewrite Nat2Z.inj_succ.
  replace ((0 <? 0)%Z) with false by reflexivity.
  replace ((0 <=? 0)%Z) with true by reflexivity.
  destruct (Z.ltb_spec 0 (Z.succ (Z.of_nat (length l)))); [|lia].
  reflexivity.
Qed.

(** What [v[0]] returns is the head of a list or the first character of a
    string. *)
Lemma getitem_int_0_returned (v x : pyval) :
  getitem_int v 0 = ret x ->
  (exists rest, v = PList (x :: rest))
  \/ (exists c rest, v = PStr (c :: rest) /\ x = PStr [c]).
Proof.
  destruct v as [| | | |s|items|]; try discriminate; unfold getitem_int.
  - destruct s as [|c s]; [discriminate|].
    intros H. right. exists c, s. split; [reflexivity|].
    rewrite seq_index_head in H. unfold ret in H. congruence.
  - destruct items as [|y items]; [discriminate|].
    intros H. left. exists items.
    rewrite seq_index_head in H. unfold ret in H. congruence.
Qed.

Lemma getitem_int_0_head (x : pyval) (rest : list pyval) :
  getitem_int (PList (x :: rest)) 0 = ret x.
Proof.
  unfold getitem_int. now rewrite seq_index_head.
Qed.

(** A dict at [v[0]]: [v] is a list and the dict is its head. *)
Lemma getitem_int_0_dict (v : pyval) (items : list (pystr * pyval)) :
  getitem_int v 0 = ret (PDict items) ->
  exists rest, v = PList (PDict items :: rest).
Proof.
  intros H. destruct (getitem_int_0_returned _ H) as [Hlist|(c & s & _ & E)].
  - exact Hlist.
  - discriminate.
Qed.

Lemma bind_returned {A B : Type} (m : result A) (k : A -> result B) (b : B) :
  bind m k = ret b <-> exists a, m = ret a /\ k a = ret b.
Proof.
  split.
  - destruct m as [e|a]; simpl; [discriminate|]. intros H. now exists a.
  - intros (a & -> & H). exact H.
Qed.

(** The chain of subscripts returns exactly on documents of the expected
    shape, and then it returns the text. *)
Lemma extract_text_shape (data text : pyval) :
  extract_text data = ret text <-> has_text_shape data text.
Proof.
  unfold extract_text, has_text_shape. split.
  - intros H.
    apply bind_returned in H as (candidates & H1 & H).
    apply bind_returned in H as (candidate & H2 & H).
    apply bind_returned in H as (content & H3 & H).
    apply bind_returned in H as (parts & H4 & H).
    apply bind_returned in H as (part & H5 & H6).
    apply getitem_str_returned in H1 as (top & -> & H1).
    apply getitem_str_returned in H3 as (candidate' & -> & H3).
    apply getitem_str_returned in H4 as (content' & -> & H4).
    apply getitem_str_returned in H6 as (part' & -> & H6).
    apply getitem_int_0_dict in H2 as (candidates' & ->).
    apply getitem_int_0_dict in H5 as (parts' & ->).
    now exists top, candidate', candidates', content', part', parts'.
  - intros (top & candidate & candidates' & content & part & parts'
            & -> & H1 & H3 & H4 & H6).
    apply bind_returned. eexists. split.
    { apply getitem_str_returned. eexists. split; [reflexivity | exact H1]. }
    apply bind_returned. eexists. split; [apply getitem_int_0_head|].
    apply bind_returned. eexists. split.
    { apply getitem_str_returned. eexists. split; [reflexivity | exact H3]. }
    apply bind_returned. eexists. split.
    { apply getitem_str_returned. eexists. split; [reflexivity | exact H4]. }
    apply bind_returned. eexists. split; [apply getitem_int_0_head|].
    apply getitem_str_returned. eexists. split; [reflexivity | exact H6].
Qed.

Lemma raise_for_status_returned (response : Response) :
  raise_for_status response = ret tt
  <-> ~ (400 <= status_code response < 600)%Z.
Proof.
  unfold raise_for_status.
  destruct (Z.leb_spec 400 (status_code response));
    destruct (Z.ltb_spec (status_code response) 600); simpl;
    split; try discriminate; try reflexivity; lia.
Qed.

Section ClientFacts.

Variable exc_str : pyexc -> pystr.
Variable requests_post : Request -> result Response.

(** The [try] block returns exactly when the POST returns a response whose
    status is no client or server error and whose body decodes to a
    document of the expected shape. *)
Lemma generate_body_returned (self : GeminiClient) (prompt : pystr)
  (text : pyval) :
  generate_body requests_post self prompt = ret text
  <-> exists response data,
        requests_post (generate_request self prompt) = ret response
        /\ ~ (400 <= status_code response < 600)%Z
        /\ json response = ret data
        /\ has_text_shape data text.
Proof.
  unfold generate_body. split.
  - intros H.
    apply bind_returned in H as (response & Hpost & H).
    apply bind_returned in H as ([] & Hstatus & H).
    apply bind_returned in H as (data & Hjson & H).
    exists response, data. repeat split; try assumption.
    + now apply raise_for_status_returned.
    + now apply extract_text_shape.
  - intros (response & data & Hpost & Hstatus & Hjson & Hshape).
    apply bind_returned. exists response. split; [assumption|].
    apply bind_returned. exists tt.
    split; [now apply raise_for_status_returned|].
    apply bind_returned. exists data. split; [assumption|].
    now apply extract_text_shape.
Qed.

Lemma generate_returned (self : GeminiClient) (prompt : pystr) (text : pyval) :
  generate exc_str requests_post self prompt = ret text
  <-> generate_body requests_post self prompt = ret text.
Proof.
  unfold generate, try_except.
  destruct (generate_body requests_post self prompt); split;
    try discriminate; auto.
Qed.

Lemma generate_raised (self : GeminiClient) (prompt : pystr) (e : pyexc) :
  generate exc_str requests_post self prompt = raise e
  <-> exists cause,
        generate_body requests_post self prompt = raise cause
        /\ e = ValueError (py "API request failed: " ++ exc_str cause).
Proof.
  unfold generate, try_except.
  destruct (generate_body requests_post self prompt) as [cause|v]; split.
  - intros H. exists cause. split; [reflexivity|].
    unfold raise in H. congruence.
  - intros (cause' & Hc & ->). unfold raise in *. congruence.
  - discriminate.
  - intros (cause' & Hc & _). discriminate.
Qed.

(** C9, as the code has it. [generate] returns exactly when the POST
    returns a response whose status is not a client or server error (not in
    400..599) and whose body decodes to a document of the expected nested
    shape, and what it returns then is the value of the text field; a 2xx
    response of that shape is such a case. In every other case -- the POST
    raises, the status is in 400..599, the body is not JSON, the document
    lacks the shape -- it raises, and what it raises is always a
    [ValueError] whose message is "API request failed: " followed by the
    rendering of the cause. *)
Theorem generate_outcomes (self : GeminiClient) (prompt : pystr) :
  (forall text,
      generate exc_str requests_post self prompt = ret text
      <-> exists response data,
            requests_post (generate_request self prompt) = ret response
            /\ ~ (400 <= status_code response < 600)%Z
            /\ json response = ret data
            /\ has_text_shape data text)
  /\ (forall response data text,
         requests_post (generate_request self prompt) = ret response ->
         status_2xx (status_code response) = true ->
         json response = ret data ->
         has_text_shape data text ->
         generate exc_str requests_post self prompt = ret text)
  /\ (raised (generate exc_str requests_post self prompt) = true
      <-> (exists cause,
              requests_post (generate_request self prompt) = raise cause)
          \/ (exists response,
                 requests_post (generate_request self prompt) = ret response
                 /\ ((400 <= status_code response < 600)%Z
                     \/ (exists cause, json response = raise cause)
                     \/ (exists data,
                            json response = ret data
                            /\ forall text, ~ has_text_shape data text))))
  /\ (forall e,
         generate exc_str requests_post self prompt = raise e ->
         exists cause,
           generate_body requests_post self prompt = raise cause
           /\ e = ValueError (py "API request failed: " ++ exc_str cause)).
Proof.
  assert (Hret : forall text,
             generate exc_str requests_post self prompt = ret text
             <-> exists response data,
                   requests_post (generate_request self prompt) = ret response
                   /\ ~ (400 <= status_code response < 600)%Z
                   /\ json response = ret data
                   /\ has_text_shape data text).
  { intros text. rewrite generate_returned. apply generate_body_returned. }
  split; [exact Hret|]. split; [|split].
  - intros response data text Hpost H2xx Hjson Hshape.
    apply Hret. exists response, data. repeat split; try assumption.
    unfold status_2xx in H2xx. apply andb_prop in H2xx as [_ Hlt].
    apply Z.ltb_lt in Hlt. lia.
  - split.
    + intros Hraised.
      destruct (requests_post (generate_request self prompt))
        as [cause|response] eqn:Hpost; [left; now exists cause|].
      right. exists response. split; [reflexivity|].
      destruct (Z_le_gt_dec 400 (status_code response)) as [Hlo|Hlo];
        [destruct (Z_lt_ge_dec (status_code response) 600) as [Hhi|Hhi]|];
        try (left; lia).
      * right. destruct (json response) as [cause|data] eqn:Hjson;
          [left; now exists cause|].
        right. exists data. split; [reflexivity|]. intros text Hshape.
        assert (Hok : generate exc_str requests_post self prompt = ret text).
        { apply Hret. exists response, data. repeat split; auto. lia. }
        rewrite Hok in Hraised. discriminate.
      * right. destruct (json response) as [cause|data] eqn:Hjson;
          [left; now exists cause|].
        right. exists data. split; [reflexivity|]. intros text Hshape.
        assert (Hok : generate exc_str requests_post self prompt = ret text).
        { apply Hret. exists response, data. repeat split; auto. lia. }
        rewrite Hok in Hraised. discriminate.
    + intros Hwrong.
      destruct (generate exc_str requests_post self prompt) as [e|text] eqn:Hg;
        [reflexivity|].
      exfalso. destruct (proj1 (Hret text) eq_refl)
        as (response & data & Hpost & Hstatus & Hjson & Hshape).
      unfold raise, ret in *.
      destruct Hwrong as [(cause & Hc)|(response' & Hpost' & Hwrong)];
        [congruence|].
      assert (response' = response) by congruence. subst response'.
      destruct Hwrong as [H4xx|[(cause & Hc)|(data' & Hjson' & Hnone)]].
      * contradiction.
      * congruence.
      * assert (data' = data) by congruence. subst data'.
        exact (Hnone _ Hshape).
  - intros e. apply generate_raised.
Qed.

End ClientFacts.

(** A run of C9: a 200 answer of the expected shape gives its text. *)
Lemma generate_outcomes_run :
  generate Examples.plain_exc_str (Examples.answering 200 (py "a b c"))
    Examples.client (py "prompt")
  = ret (PStr (py "a b c")).
Proof.
  apply (proj1 (proj2 (generate_outcomes Examples.plain_exc_str
                         (Examples.answering 200 (py "a b c"))
                         Examples.client (py "prompt")))
           {| status_code := 200;
              json := ret (Examples.shaped_document (py "a b c")) |}
           (Examples.shaped_document (py "a b c"))).
  - reflexivity.
  - reflexivity.
  - reflexivity.
  - apply extract_text_shape. reflexivity.
Defined.

(** C9 as the specification words it fails: status 300 is not a 2xx status,
    and on a 300 answer with a document of the expected shape [generate]
    does not fail but returns the text. *)
Lemma generate_accepts_status_300 :
  status_2xx 300 = false
  /\ raised (generate Examples.plain_exc_str
               (Examples.answering 300 (py "a b c"))
               Examples.client (py "prompt")) = false
  /\ generate Examples.plain_exc_str (Examples.answering 300 (py "a b c"))
       Examples.client (py "prompt")
     = ret (PStr (py "a b c")).
Proof.
  split; [reflexivity|]. split; reflexivity.
Qed.

(* ------------------------------------------------------------------ *)
(** * The classifier: range, case and shadowed keywords *)

Lemma first_sentiment_name (items : list (pystr * list pystr))
  (text s : pystr) :
  first_sentiment items text = Some s -> In s (map fst items).
Proof.
  intros H.
  destruct (first_sentiment_found _ _ H) as (pre & kws & post & -> & _).
  rewrite map_app. apply in_or_app. right. now left.
Qed.

Lemma keyword_sentiment_not_default (s : pystr) :
  In s [happy; sad; love; excited; greeting] ->
  s <> confused /\ s <> neutral.
Proof.
  intros H. simpl in H.
  repeat (destruct H as [<-|H]; [split; discriminate|]).
  contradiction.
Qed.

Lemma ascii_lower_question_mark (c : N) :
  ascii_lower c = question_mark <-> c = question_mark.
Proof.
  unfold ascii_lower, question_mark.
  destruct (N.leb_spec 65 c); destruct (N.leb_spec c 90); simpl; lia.
Qed.

Lemma ascii_lower_keeps_question_mark (m : pystr) :
  In question_mark (map ascii_lower m) <-> In question_mark m.
Proof.
  rewrite in_map_iff. split.
  - intros (c & Hc & Hin).
    apply (proj1 (ascii_lower_question_mark c)) in Hc. now subst.
  - intros Hin. exists question_mark. split; [reflexivity | assumption].
Qed.

Lemma lower_ascii (unicode_lower : pystr -> pystr) (m : pystr) :
  forallb is_ascii m = true -> lower unicode_lower m = map ascii_lower m.
Proof. intros H. unfold lower. now rewrite H. Qed.

Lemma occurs_inside (needle pre post hay : pystr) :
  occurs (pre ++ needle ++ post) hay -> occurs needle hay.
Proof.
  intros (a & b & ->). exists (a ++ pre), (post ++ b).
  now rewrite <- !app_assoc.
Qed.

Section ClassifierMore.

Variable unicode_lower : pystr -> pystr.

(** The answer of [detect_sentiment] is always one of the seven sentiment
    names. It is confused exactly when the message holds a question mark
    and no keyword occurs in its lower-casing, and neutral exactly when it
    holds no question mark and no keyword occurs: a keyword always wins
    over the question mark. *)
Theorem detect_sentiment_range (message0 : pystr) :
  In (detect_sentiment unicode_lower SentimentAnalyzer_init message0)
     [happy; sad; love; excited; greeting; neutral; confused]
  /\ (detect_sentiment unicode_lower SentimentAnalyzer_init message0
      = confused
      <-> In question_mark message0
          /\ forall s kws,
               In (s, kws) (sentiment_map SentimentAnalyzer_init) ->
               ~ some_keyword_occurs kws (lower unicode_lower message0))
  /\ (detect_sentiment unicode_lower SentimentAnalyzer_init message0
      = neutral
      <-> ~ In question_mark message0
          /\ forall s kws,
               In (s, kws) (sentiment_map SentimentAnalyzer_init) ->
               ~ some_keyword_occurs kws (lower unicode_lower message0)).
Proof.
  destruct (first_sentiment (sentiment_map SentimentAnalyzer_init)
              (lower unicode_lower message0)) as [s|] eqn:Hscan.
  - rewrite (detect_sentiment_found _ _ Hscan).
    pose proof (first_sentiment_name _ _ Hscan) as Hname.
    rewrite sentiment_names in Hname.
    destruct (keyword_sentiment_not_default Hname) as [Hc Hn].
    destruct (first_sentiment_found _ _ Hscan)
      as (pre & kws & post & Htable & Hhit & _).
    assert (Hsome : ~ (forall s' kws',
                        In (s', kws') (sentiment_map SentimentAnalyzer_init) ->
                        ~ some_keyword_occurs kws'
                            (lower unicode_lower message0))).
    { intros Hnone. apply (Hnone s kws).
      - rewrite Htable. apply in_or_app. right. now left.
      - now apply any_keyword_in_occurs. }
    split; [|split].
    + simpl in Hname |- *. intuition.
    + split; [contradiction | intros [_ H]; contradiction].
    + split; [contradiction | intros [_ H]; contradiction].
  - rewrite (detect_sentiment_nothing _ _ Hscan).
    pose proof (@no_keyword_by_scan _ _ Hscan) as Hnone.
    change (py "?") with [question_mark].
    destruct (contains [question_mark] message0) eqn:Hq.
    + apply contains_char in Hq.
      split; [simpl; intuition|]. split.
      * split; [intros _; now split | reflexivity].
      * split; [discriminate | intros [Hno _]; contradiction].
    + assert (Hno : ~ In question_mark message0).
      { intros Hin. apply contains_char in Hin. congruence. }
      split; [simpl; intuition|]. split.
      * split; [discriminate | intros [Hin _]; contradiction].
      * split; [intros _; now split | reflexivity].
Qed.

(** On pure ASCII messages the classification ignores letter case: two
    messages that differ only in the case of their ASCII letters get the
    same sentiment. *)
Theorem detect_sentiment_ignores_case (m1 m2 : pystr) :
  forallb is_ascii m1 = true ->
  forallb is_ascii m2 = true ->
  map ascii_lower m1 = map ascii_lower m2 ->
  detect_sentiment unicode_lower SentimentAnalyzer_init m1
  = detect_sentiment unicode_lower SentimentAnalyzer_init m2.
Proof.
  intros H1 H2 Heq. unfold detect_sentiment.
  rewrite (lower_ascii _ _ H1), (lower_ascii _ _ H2), Heq.
  destruct (first_sentiment (sentiment_map SentimentAnalyzer_init)
              (map ascii_lower m2)); [reflexivity|].
  change (py "?") with [question_mark].
  assert (Hq : contains [question_mark] m1 = contains [question_mark] m2).
  { apply eq_true_iff_eq. rewrite !contains_char.
    rewrite <- (ascii_lower_keeps_question_mark m1),
            <- (ascii_lower_keeps_question_mark m2), Heq.
    reflexivity. }
  now rewrite Hq.
Qed.

(** The keyword "unhappy" of sad is shadowed by the keyword "happy" of the
    earlier sentiment happy: every message in whose lower-casing "unhappy"
    occurs is classified as happy. *)
Theorem detect_sentiment_unhappy_is_happy (message0 : pystr) :
  occurs (py "unhappy") (lower unicode_lower message0) ->
  detect_sentiment unicode_lower SentimentAnalyzer_init message0 = happy.
Proof.
  intros H.
  apply detect_sentiment_found.
  apply (first_sentiment_stops []
           [(py "sad", [py "sad"; py "bad"; py "upset"; py "unhappy"]);
            (py "love", [py "love"; py "heart"; py "adore"; py "cherish"]);
            (py "excited",
              [py "excited"; py "wow"; py "amazing"; py "thrilled"]);
            (py "greeting", [py "hello"; py "hi"; py "hey"; py "greetings"])]
           happy
           [py "happy"; py "joy"; py "good"; py "great"; py "awesome"]).
  - apply any_keyword_in_occurs. exists (py "happy"). split; [now left|].
    apply (occurs_inside (py "happy") (py "un") []). exact H.
  - intros ? ? [].
Qed.

End ClassifierMore.

(** A run: "I'm HAPPY?" and "i'm happy?" are classified alike. *)
Lemma detect_sentiment_ignores_case_run :
  detect_sentiment Examples.plain_unicode_lower SentimentAnalyzer_init
    (py "I'm HAPPY?")
  = detect_sentiment Examples.plain_unicode_lower SentimentAnalyzer_init
      (py "i'm happy?").
Proof.
  apply (detect_sentiment_ignores_case Examples.plain_unicode_lower
           (py "I'm HAPPY?") (py "i'm happy?"));
    reflexivity.
Defined.

(** A run: "So UNHAPPY" is happy. *)
Lemma detect_sentiment_unhappy_is_happy_run :
  detect_sentiment Examples.plain_unicode_lower SentimentAnalyzer_init
    (py "So UNHAPPY") = happy.
Proof.
  apply (detect_sentiment_unhappy_is_happy Examples.plain_unicode_lower
           (py "So UNHAPPY")).
  apply contains_occurs. reflexivity.
Defined.

(* ------------------------------------------------------------------ *)
(** * The library lookup and the model, further *)

(** [get_emojis] evaluates its default first. With no entry for neutral it
    raises [KeyError] whatever sentiment is asked for, even one the library
    holds; with an entry for neutral it returns the entry of the sentiment
    when there is one, and the neutral entry otherwise. *)
Theorem get_emojis_default_first (self : SentimentAnalyzer) (s : pystr) :
  (dict_get (emoji_library self) neutral = None ->
   get_emojis self s = raise (KeyError (PStr neutral)))
  /\ (forall d l,
         dict_get (emoji_library self) neutral = Some d ->
         dict_get (emoji_library self) s = Some l ->
         get_emojis self s = ret l)
  /\ (forall d,
         dict_get (emoji_library self) neutral = Some d ->
         dict_get (emoji_library self) s = None ->
         get_emojis self s = ret d).
Proof.
  split; [|split].
  - intros H. unfold get_emojis, dict_getitem. fold neutral. now rewrite H.
  - intros d l Hd Hl. rewrite (get_emojis_lookup _ s Hd).
    unfold dict_get_default. now rewrite Hl.
  - intros d Hd Hs. rewrite (get_emojis_lookup _ s Hd).
    unfold dict_get_default. now rewrite Hs.
Qed.

(** A run: a library with an entry for happy and none for neutral raises
    on happy. *)
Lemma get_emojis_default_first_run :
  dict_get (emoji_library Scenarios.no_neutral) happy
  = Some (Examples.faces 3)
  /\ get_emojis Scenarios.no_neutral happy = raise (KeyError (PStr neutral)).
Proof.
  split; [reflexivity|].
  apply (proj1 (get_emojis_default_first Scenarios.no_neutral happy)).
  reflexivity.
Defined.

(** Validation is idempotent: building a suggestion again from the fields
    of a suggestion that was built gives the same suggestion. *)
Theorem EmojiSuggestion_new_again (l : list pystr) (m : pystr)
  (s : EmojiSuggestion) :
  EmojiSuggestion_new l m = ret s ->
  EmojiSuggestion_new (emojis s) (message s) = ret s.
Proof.
  intros H. destruct (EmojiSuggestion_new_returned _ _ H) as [Hge ->].
  cbn [emojis message].
  rewrite EmojiSuggestion_new_long by (rewrite length_firstn; lia).
  now rewrite firstn_firstn.
Qed.

(** A run: the suggestion built from 21 emoji is rebuilt unchanged from its
    own 20. *)
Lemma EmojiSuggestion_new_again_run :
  EmojiSuggestion_new (Examples.faces 20) (py "ok")
  = ret {| emojis := Examples.faces 20; message := py "ok" |}.
Proof.
  exact (EmojiSuggestion_new_again (Examples.faces 21) (py "ok") eq_refl).
Defined.

(* ------------------------------------------------------------------ *)
(** * The orchestrator: the two paths *)

Lemma firstn_Forall {A : Type} (P : A -> Prop) (n : nat) (l : list A) :
  Forall P l -> Forall P (firstn n l).
Proof.
  intros H. revert n. induction H; intros [|n]; simpl; constructor; auto.
Qed.

Lemma str_join_spaced (t : pystr) (ts : list pystr) :
  str_join (py " ") (t :: ts)
  = spaced [] t (map (fun y => (py " ", y)) ts) [].
Proof.
  unfold str_join, spaced. rewrite app_nil_r. simpl. f_equal.
  induction ts as [|y ts IH]; simpl; [reflexivity|]. now rewrite IH.
Qed.

(** Tokens joined by single spaces split back into the same tokens. *)
Lemma split_str_join (ts : list pystr) :
  Forall (fun t => is_token t = true) ts ->
  split (str_join (py " ") ts) = ts.
Proof.
  intros H. destruct H as [|t ts Ht Hts]; [reflexivity|].
  rewrite str_join_spaced.
  rewrite split_spaced; try reflexivity; try assumption.
  - f_equal. rewrite map_map. simpl. apply map_id.
  - induction Hts as [|y ts Hy Hts IH]; simpl; [reflexivity|].
    now rewrite Hy, IH.
Qed.

Section AgentPaths.

Variable unicode_lower : pystr -> pystr.
Variable exc_str : pyexc -> pystr.

(** The three ways [suggest_emojis] ends: the client returned a text of at
    least 3 tokens, and the suggestion holds its first 15 with nothing
    printed; or the [try] block failed and the line was printed, and the
    suggestion is the library's; or the [try] block failed and the line
    could not be printed. *)
Lemma suggest_emojis_paths (g : pystr -> result pyval) (message0 : pystr) :
  (exists r,
      g (suggest_prompt
           (detect_sentiment unicode_lower SentimentAnalyzer_init message0)
           message0) = ret (PStr r)
      /\ 3 <= length (split r)
      /\ suggest_emojis unicode_lower exc_str (agent_with g) message0
         = ([], ret {| emojis := firstn 15 (split r);
                       message := message0 |}))
  \/ (exists e l,
         suggest_body unicode_lower (agent_with g) message0 = raise e
         /\ (forall r,
                g (suggest_prompt
                     (detect_sentiment unicode_lower SentimentAnalyzer_init
                        message0)
                     message0) = ret (PStr r) ->
                length (split r) < 3)
         /\ get_emojis SentimentAnalyzer_init
              (detect_sentiment unicode_lower SentimentAnalyzer_init message0)
            = ret l
         /\ length l = 10
         /\ (utf8_encodable (fallback_line exc_str e) = true ->
             suggest_emojis unicode_lower exc_str (agent_with g) message0
             = ([fallback_line exc_str e],
                ret {| emojis := l; message := message0 |}))
         /\ (utf8_encodable (fallback_line exc_str e) = false ->
             suggest_emojis unicode_lower exc_str (agent_with g) message0
             = ([], raise UnicodeEncodeError))).
Proof.
  destruct (suggest_body unicode_lower (agent_with g) message0)
    as [e|s] eqn:Hbody.
  - right.
    destruct (suggest_fallback_returns unicode_lower g message0)
      as (l & Hl & Hlen & Hfb).
    exists e, l. split; [reflexivity|].
    split; [|split; [assumption|split; [assumption|split]]].
    + intros r Hg.
      destruct (Nat.lt_ge_cases (length (split r)) 3) as [|Hge];
        [assumption|].
      rewrite (suggest_body_text _ _ _ Hg) in Hbody.
      rewrite EmojiSuggestion_new_long in Hbody
        by (rewrite length_firstn; lia).
      discriminate.
    + intros Henc.
      now rewrite (suggest_emojis_raised _ exc_str _ _ Hbody Henc), Hfb.
    + intros Henc.
      exact (suggest_emojis_print_failed _ exc_str _ _ Hbody Henc).
  - left.
    destruct (suggest_body_returned _ _ _ Hbody) as (r & Hg & Hnew).
    destruct (EmojiSuggestion_new_returned _ _ Hnew) as [Hge ->].
    rewrite length_firstn in Hge. rewrite firstn_firstn in Hbody.
    exists r. split; [assumption|]. split; [lia|].
    now rewrite (suggest_emojis_returned _ exc_str _ _ Hbody).
Qed.

(** A suggestion that [suggest_emojis] returns never holds more than 15
    emoji, although the model would accept 20: a generated suggestion holds
    between 3 and 15, and a fallback suggestion, the one returned after a
    line was printed, exactly 10. *)
Theorem suggest_emojis_at_most_15 (g : pystr -> result pyval)
  (message0 : pystr) (s : EmojiSuggestion) :
  snd (suggest_emojis unicode_lower exc_str (agent_with g) message0) = ret s ->
  3 <= length (emojis s) <= 15
  /\ (fst (suggest_emojis unicode_lower exc_str (agent_with g) message0)
      <> [] ->
      length (emojis s) = 10).
Proof.
  intros Hs.
  destruct (suggest_emojis_paths g message0)
    as [(r & _ & Hlen & Hrun)|(e & l & _ & _ & _ & Hlen & Hok & Hbad)].
  - rewrite Hrun in Hs |- *. cbn [fst snd] in Hs |- *.
    assert (E : s = {| emojis := firstn 15 (split r); message := message0 |})
      by (unfold ret in Hs; congruence).
    rewrite E. cbn [emojis]. rewrite length_firstn.
    split; [lia|]. intros H. now contradiction H.
  - destruct (utf8_encodable (fallback_line exc_str e)) eqn:Henc.
    + rewrite (Hok eq_refl) in Hs |- *. cbn [fst snd] in Hs |- *.
      assert (E : s = {| emojis := l; message := message0 |})
        by (unfold ret in Hs; congruence).
      rewrite E. cbn [emojis]. split; [lia|]. intros _. assumption.
    + rewrite (Hbad eq_refl) in Hs. discriminate.
Qed.

(** When [suggest_emojis] takes which path. It returns with nothing printed
    exactly when the client returned a text of at least 3 white-space
    separated tokens, and the suggestion then holds the first 15 of them.
    In every other case the [try] block has failed: if the line naming the
    failure can be printed, exactly that line is printed and the suggestion
    returned is the library's list for the detected sentiment; if it cannot,
    nothing is printed and [UnicodeEncodeError] is raised. *)
Theorem suggest_emojis_fallback_trigger (g : pystr -> result pyval)
  (message0 : pystr) :
  ((exists s,
       suggest_emojis unicode_lower exc_str (agent_with g) message0
       = ([], ret s))
   <-> exists r,
         g (suggest_prompt
              (detect_sentiment unicode_lower SentimentAnalyzer_init message0)
              message0) = ret (PStr r)
         /\ 3 <= length (split r))
  /\ (forall r,
         g (suggest_prompt
              (detect_sentiment unicode_lower SentimentAnalyzer_init message0)
              message0) = ret (PStr r) ->
         3 <= length (split r) ->
         suggest_emojis unicode_lower exc_str (agent_with g) message0
         = ([], ret {| emojis := firstn 15 (split r);
                       message := message0 |}))
  /\ ((forall r,
          g (suggest_prompt
               (detect_sentiment unicode_lower SentimentAnalyzer_init message0)
               message0) = ret (PStr r) ->
          length (split r) < 3) ->
      exists e l,
        suggest_body unicode_lower (agent_with g) message0 = raise e
        /\ get_emojis SentimentAnalyzer_init
             (detect_sentiment unicode_lower SentimentAnalyzer_init message0)
           = ret l
        /\ (utf8_encodable (fallback_line exc_str e) = true ->
            suggest_emojis unicode_lower exc_str (agent_with g) message0
            = ([fallback_line exc_str e],
               ret {| emojis := l; message := message0 |}))
        /\ (utf8_encodable (fallback_line exc_str e) = false ->
            suggest_emojis unicode_lower exc_str (agent_with g) message0
            = ([], raise UnicodeEncodeError))).
Proof.
  destruct (suggest_emojis_paths g message0)
    as [(r & Hg & Hlen & Hrun)
       |(e & l & Hbody & Hshort & Hl & _ & Hok & Hbad)].
  - split; [|split].
    + split; [intros _; now exists r | intros _; eexists; exact Hrun].
    + intros r' Hg' _. rewrite Hrun.
      unfold ret in Hg, Hg'. congruence.
    + intros Hall. specialize (Hall r Hg). lia.
  - split; [|split].
    + split.
      * intros (s & Hs).
        destruct (utf8_encodable (fallback_line exc_str e)) eqn:Henc.
        -- rewrite (Hok eq_refl) in Hs. discriminate.
        -- rewrite (Hbad eq_refl) in Hs. discriminate.
      * intros (r & Hg & Hlen). specialize (Hshort r Hg). lia.
    + intros r Hg Hlen. specialize (Hshort r Hg). lia.
    + intros _. now exists e, l.
Qed.

(** The emoji of a generated suggestion are tokens -- not empty, free of
    white space -- so the line [main] prints for them, the emoji joined by
    single spaces, splits back into the same emoji. *)
Theorem generated_emojis_round_trip (g : pystr -> result pyval)
  (message0 : pystr) (s : EmojiSuggestion) :
  suggest_body unicode_lower (agent_with g) message0 = ret s ->
  Forall (fun t => is_token t = true) (emojis s)
  /\ split (str_join (py " ") (emojis s)) = emojis s.
Proof.
  intros Hbody.
  destruct (suggest_body_returned _ _ _ Hbody) as (r & _ & Hnew).
  destruct (EmojiSuggestion_new_returned _ _ Hnew) as [_ ->].
  cbn [emojis].
  assert (H : Forall (fun t => is_token t = true)
                (firstn 20 (firstn 15 (split r))))
    by (do 2 apply firstn_Forall; apply split_tokens).
  split; [exact H | now apply split_str_join].
Qed.

End AgentPaths.

(** A run: eighteen tokens generated, fifteen emoji returned. *)
Lemma suggest_emojis_at_most_15_run :
  3 <= length (Examples.faces 15) <= 15.
Proof.
  exact (proj1 (@suggest_emojis_at_most_15
                  Examples.plain_unicode_lower Examples.plain_exc_str
                  Examples.eighteen_generate (py "party time")
                  {| emojis := Examples.faces 15;
                     message := py "party time" |}
                  eq_refl)).
Defined.

(** A run: the fifteen emoji generated from eighteen round-trip. *)
Lemma generated_emojis_round_trip_run :
  split (str_join (py " ") (Examples.faces 15)) = Examples.faces 15.
Proof.
  exact (proj2 (generated_emojis_round_trip
                  Examples.plain_unicode_lower
                  Examples.eighteen_generate (py "party time")
                  (s := {| emojis := Examples.faces 15;
                           message := py "party time" |})
                  eq_refl)).
Defined.

(* ------------------------------------------------------------------ *)
(** * The remote client: which failure is reported *)

Section ClientCauses.

Variable exc_str : pyexc -> pystr.
Variable requests_post : Request -> result Response.

Lemma generate_cause (self : GeminiClient) (prompt : pystr) (cause : pyexc) :
  generate_body requests_post self prompt = raise cause ->
  generate exc_str requests_post self prompt
  = raise (ValueError (py "API request failed: " ++ exc_str cause)).
Proof.
  intros H. unfold generate, try_except. now rewrite H.
Qed.

(** Past the status check, the [try] block is the decoding of the body
    followed by the subscripts. *)
Lemma generate_body_document (self : GeminiClient) (prompt : pystr)
  (response : Response) :
  requests_post (generate_request self prompt) = ret response ->
  ~ (400 <= status_code response < 600)%Z ->
  generate_body requests_post self prompt
  = (data <- json response ;; extract_text data).
Proof.
  intros Hpost Hstatus. unfold generate_body. rewrite Hpost.
  unfold ret at 1. cbn [bind].
  apply raise_for_status_returned in Hstatus. rewrite Hstatus.
  reflexivity.
Qed.

Lemma generate_body_error_status (self : GeminiClient) (prompt : pystr)
  (response : Response) :
  requests_post (generate_request self prompt) = ret response ->
  (400 <= status_code response < 600)%Z ->
  generate_body requests_post self prompt
  = raise (HTTPError (status_code response)).
Proof.
  intros Hpost Hstatus.
  unfold generate_body. rewrite Hpost. unfold ret at 1. cbn [bind].
  unfold raise_for_status.
  destruct (Z.leb_spec 400 (status_code response)); [|lia].
  destruct (Z.ltb_spec (status_code response) 600); [|lia].
  reflexivity.
Qed.

(** The status is checked before the body is looked at: on a client or
    server error status (400..599) [generate] fails with the [HTTPError] of
    that status as cause, whatever the body holds, a document of the
    expected shape included. *)
Theorem generate_error_status_first (self : GeminiClient) (prompt : pystr)
  (response : Response) :
  requests_post (generate_request self prompt) = ret response ->
  (400 <= status_code response < 600)%Z ->
  generate exc_str requests_post self prompt
  = raise (ValueError
             (py "API request failed: "
              ++ exc_str (HTTPError (status_code response)))).
Proof.
  intros Hpost Hstatus. apply generate_cause.
  now apply generate_body_error_status.
Qed.

(** On an answer whose status passes, the cause reported tells what was
    wrong with the body: the decoding error of a body that is not JSON, a
    [KeyError] for "candidates" when the document is a dict without that
    key, an [IndexError] when the candidates list is empty, a [TypeError]
    when the document is not a dict at all. *)
Theorem generate_document_causes (self : GeminiClient) (prompt : pystr)
  (response : Response) :
  requests_post (generate_request self prompt) = ret response ->
  ~ (400 <= status_code response < 600)%Z ->
  (forall cause,
      json response = raise cause ->
      generate exc_str requests_post self prompt
      = raise (ValueError (py "API request failed: " ++ exc_str cause)))
  /\ (forall top,
         json response = ret (PDict top) ->
         dict_get top (py "candidates") = None ->
         generate exc_str requests_post self prompt
         = raise (ValueError
                    (py "API request failed: "
                     ++ exc_str (KeyError (PStr (py "candidates"))))))
  /\ (forall top,
         json response = ret (PDict top) ->
         dict_get top (py "candidates") = Some (PList []) ->
         generate exc_str requests_post self prompt
         = raise (ValueError (py "API request failed: "
                              ++ exc_str IndexError)))
  /\ (forall data,
         json response = ret data ->
         (forall top, data <> PDict top) ->
         generate exc_str requests_post self prompt
         = raise (ValueError (py "API request failed: "
                              ++ exc_str TypeError))).
Proof.
  intros Hpost Hstatus.
  pose proof (@generate_body_document self prompt _ Hpost Hstatus) as Hbody.
  split; [|split; [|split]].
  - intros cause Hjson. apply generate_cause. now rewrite Hbody, Hjson.
  - intros top Hjson Hnone. apply generate_cause. rewrite Hbody, Hjson.
    unfold ret at 1. cbn [bind]. unfold extract_text, getitem_str, dict_getitem.
    now rewrite Hnone.
  - intros top Hjson Hempty. apply generate_cause. rewrite Hbody, Hjson.
    unfold ret at 1. cbn [bind]. unfold extract_text, getitem_str, dict_getitem.
    now rewrite Hempty.
  - intros data Hjson Hnodict. apply generate_cause. rewrite Hbody, Hjson.
    unfold ret at 1. cbn [bind]. unfold extract_text.
    destruct data; try reflexivity. now contradiction (Hnodict items).
Qed.

End ClientCauses.

(** A run: status 503 with a document of the expected shape. *)
Lemma generate_error_status_first_run :
  generate Examples.plain_exc_str (Examples.answering 503 (py "a b c"))
    Examples.client (py "prompt")
  = raise (ValueError
             (py "API request failed: "
              ++ Examples.plain_exc_str (HTTPError 503))).
Proof.
  apply (@generate_error_status_first Examples.plain_exc_str
           (Examples.answering 503 (py "a b c"))
           Examples.client (py "prompt")
           {| status_code := 503;
              json := ret (Examples.shaped_document (py "a b c")) |}).
  - reflexivity.
  - simpl. lia.
Defined.

(** A run: status 200 with an empty JSON object. *)
Lemma generate_document_causes_run :
  generate Examples.plain_exc_str (Scenarios.answering_with 200 (PDict []))
    Examples.client (py "prompt")
  = raise (ValueError
             (py "API request failed: "
              ++ Examples.plain_exc_str (KeyError (PStr (py "candidates"))))).
Proof.
  apply (proj1 (proj2
           (@generate_document_causes Examples.plain_exc_str
              (Scenarios.answering_with 200 (PDict []))
              Examples.client (py "prompt")
              {| status_code := 200; json := ret (PDict []) |}
              eq_refl ltac:(simpl; lia)))
           []).
  - reflexivity.
  - reflexivity.
Defined.

(* ------------------------------------------------------------------ *)
(** * Construction, and the agent with its real client *)

Lemma GeminiClient_init_no_key (getenv : pystr -> option pystr) :
  getenv (py "GEMINI_API_KEY") = None
  \/ getenv (py "GEMINI_API_KEY") = Some [] ->
  GeminiClient_init getenv = raise (ValueError (py "API key not found")).
Proof.
  unfold GeminiClient_init. intros [H|H]; now rewrite H.
Qed.

Lemma GeminiClient_init_key (getenv : pystr -> option pystr) (key : pystr) :
  getenv (py "GEMINI_API_KEY") = Some key ->
  key <> [] ->
  GeminiClient_init getenv
  = ret {| api_key := key;
           base_url := py "https://generativelanguage.googleapis.com/v1beta/models/gemini-2.0-flash:generateContent" |}.
Proof.
  unfold GeminiClient_init. intros H Hne. rewrite H.
  destruct key; [contradiction | reflexivity].
Qed.

Section RealAgent.

Variable unicode_lower : pystr -> pystr.
Variable exc_str : pyexc -> pystr.
Variable requests_post : Request -> result Response.
Variable getenv : pystr -> option pystr.

Lemma AIAgent_init_client (client : GeminiClient) :
  GeminiClient_init getenv = ret client ->
  AIAgent_init exc_str requests_post getenv
  = ret (agent_with (generate exc_str requests_post client)).
Proof.
  intros H. unfold AIAgent_init. now rewrite H.
Qed.

(** [AIAgent()] fails exactly as [GeminiClient()] does: with the
    [ValueError] "API key not found" when the environment has no
    GEMINI_API_KEY or an empty one. With a key it returns an agent whose
    client carries that key and the fixed endpoint, beside a fresh
    analyzer. *)
Theorem AIAgent_init_outcomes :
  (getenv (py "GEMINI_API_KEY") = None
   \/ getenv (py "GEMINI_API_KEY") = Some [] ->
   AIAgent_init exc_str requests_post getenv
   = raise (ValueError (py "API key not found")))
  /\ (forall key,
         getenv (py "GEMINI_API_KEY") = Some key ->
         key <> [] ->
         AIAgent_init exc_str requests_post getenv
         = ret (agent_with
                  (generate exc_str requests_post
                     {| api_key := key;
                        base_url := py "https://generativelanguage.googleapis.com/v1beta/models/gemini-2.0-flash:generateContent" |})))
  /\ raised (AIAgent_init exc_str requests_post getenv)
     = raised (GeminiClient_init getenv).
Proof.
  split; [|split].
  - intros H. unfold AIAgent_init.
    now rewrite (GeminiClient_init_no_key _ H).
  - intros key H Hne. apply AIAgent_init_client.
    now apply GeminiClient_init_key.
  - unfold AIAgent_init. now destruct (GeminiClient_init getenv).
Qed.

(** End to end, generation: when the network answers the agent's request
    with a status that is no client or server error and a document of the
    expected shape whose text has at least 3 tokens, the agent built by
    [AIAgent()] returns the first 15 tokens with the message, and prints
    nothing. *)
Theorem agent_generates (client : GeminiClient) (message0 : pystr)
  (response : Response) (data : pyval) (r : pystr) :
  GeminiClient_init getenv = ret client ->
  requests_post
    (generate_request client
       (suggest_prompt
          (detect_sentiment unicode_lower SentimentAnalyzer_init message0)
          message0)) = ret response ->
  ~ (400 <= status_code response < 600)%Z ->
  json response = ret data ->
  has_text_shape data (PStr r) ->
  3 <= length (split r) ->
  exists agent,
    AIAgent_init exc_str requests_post getenv = ret agent
    /\ suggest_emojis unicode_lower exc_str agent message0
       = ([], ret {| emojis := firstn 15 (split r); message := message0 |}).
Proof.
  intros Hinit Hpost Hstatus Hjson Hshape Hlen.
  exists (agent_with (generate exc_str requests_post client)).
  split; [now apply AIAgent_init_client|].
  assert (Hg : generate exc_str requests_post client
                 (suggest_prompt
                    (detect_sentiment unicode_lower SentimentAnalyzer_init
                       message0) message0) = ret (PStr r)).
  { apply generate_returned. apply generate_body_returned.
    now exists response, data. }
  apply suggest_emojis_returned.
  rewrite (@suggest_body_text unicode_lower _ message0 r Hg).
  rewrite EmojiSuggestion_new_long by (rewrite length_firstn; lia).
  now rewrite firstn_firstn.
Qed.

(** End to end, fallback: the agent built by [AIAgent()] catches the
    failure of its client -- when the network raises (the cause is the
    client's "API request failed" error around the network's), when the
    status is in 400..599 (around the [HTTPError]) -- and also fails, with
    an [AttributeError], on a document of the expected shape whose text is
    not a string, which the client returns as it is. In each case, provided
    the line naming the cause can be written to standard output, it prints
    that line and answers with the library's list for the detected
    sentiment; when the line cannot be written, the print's
    [UnicodeEncodeError] is raised instead. *)
Theorem agent_falls_back (client : GeminiClient) (message0 : pystr) :
  GeminiClient_init getenv = ret client ->
  exists agent l,
    AIAgent_init exc_str requests_post getenv = ret agent
    /\ get_emojis SentimentAnalyzer_init
         (detect_sentiment unicode_lower SentimentAnalyzer_init message0)
       = ret l
    /\ (forall cause,
           requests_post
             (generate_request client
                (suggest_prompt
                   (detect_sentiment unicode_lower SentimentAnalyzer_init
                      message0) message0)) = raise cause ->
           utf8_encodable
             (fallback_line exc_str
                (ValueError (py "API request failed: " ++ exc_str cause)))
           = true ->
           suggest_emojis unicode_lower exc_str agent message0
           = ([fallback_line exc_str
                 (ValueError (py "API request failed: " ++ exc_str cause))],
              ret {| emojis := l; message := message0 |}))
    /\ (forall response,
           requests_post
             (generate_request client
                (suggest_prompt
                   (detect_sentiment unicode_lower SentimentAnalyzer_init
                      message0) message0)) = ret response ->
           (400 <= status_code response < 600)%Z ->
           utf8_encodable
             (fallback_line exc_str
                (ValueError
                   (py "API request failed: "
                    ++ exc_str (HTTPError (status_code response)))))
           = true ->
           suggest_emojis unicode_lower exc_str agent message0
           = ([fallback_line exc_str
                 (ValueError
                    (py "API request failed: "
                     ++ exc_str (HTTPError (status_code response))))],
              ret {| emojis := l; message := message0 |}))
    /\ (forall response data v,
           requests_post
             (generate_request client
                (suggest_prompt
                   (detect_sentiment unicode_lower SentimentAnalyzer_init
                      message0) message0)) = ret response ->
           ~ (400 <= status_code response < 600)%Z ->
           json response = ret data ->
           has_text_shape data v ->
           (forall r, v <> PStr r) ->
           utf8_encodable (fallback_line exc_str AttributeError) = true ->
           suggest_emojis unicode_lower exc_str agent message0
           = ([fallback_line exc_str AttributeError],
              ret {| emojis := l; message := message0 |}))
    /\ (forall e,
           suggest_body unicode_lower agent message0 = raise e ->
           utf8_encodable (fallback_line exc_str e) = false ->
           suggest_emojis unicode_lower exc_str agent message0
           = ([], raise UnicodeEncodeError)).
Proof.
  intros Hinit.
  destruct (suggest_fallback_returns unicode_lower
              (generate exc_str requests_post client) message0)
    as (l & Hl & _ & Hfallback).
  exists (agent_with (generate exc_str requests_post client)), l.
  split; [now apply AIAgent_init_client|]. split; [assumption|].
  assert (Hfb : forall e,
             suggest_body unicode_lower
               (agent_with (generate exc_str requests_post client)) message0
             = raise e ->
             utf8_encodable (fallback_line exc_str e) = true ->
             suggest_emojis unicode_lower exc_str
               (agent_with (generate exc_str requests_post client)) message0
             = ([fallback_line exc_str e],
                ret {| emojis := l; message := message0 |})).
  { intros e He Henc.
    now rewrite (@suggest_emojis_raised unicode_lower exc_str _ _ _ He Henc),
      Hfallback. }
  split; [|split; [|split]].
  - intros cause Hpost. apply Hfb. apply suggest_body_client_raised.
    apply generate_cause. unfold generate_body. now rewrite Hpost.
  - intros response Hpost Hstatus. apply Hfb.
    apply suggest_body_client_raised. apply generate_cause.
    now apply generate_body_error_status.
  - intros response data v Hpost Hstatus Hjson Hshape Hnostr. apply Hfb.
    assert (Hg : generate exc_str requests_post client
                   (suggest_prompt
                      (detect_sentiment unicode_lower SentimentAnalyzer_init
                         message0) message0) = ret v).
    { apply generate_returned. apply generate_body_returned.
      now exists response, data. }
    unfold suggest_body, agent_with. cbn [gemini_generate sentiment].
    rewrite Hg. unfold ret at 1. cbn [bind].
    destruct v; try reflexivity. now contradiction (Hnostr s).
  - intros e He Henc.
    exact (@suggest_emojis_print_failed unicode_lower exc_str _ _ _ He Henc).
Qed.

End RealAgent.

(** A run of the generation path with the real client: a 200 answer whose
    text holds three emoji. *)
Lemma agent_generates_run :
  exists agent,
    AIAgent_init Examples.plain_exc_str
      (Examples.answering 200 (str_join (py " ") (Examples.faces 3)))
      Scenarios.env_with_key = ret agent
    /\ suggest_emojis Examples.plain_unicode_lower Examples.plain_exc_str
         agent (py "good morning")
       = ([], ret {| emojis := Examples.faces 3;
                     message := py "good morning" |}).
Proof.
  eapply (@agent_generates Examples.plain_unicode_lower
            Examples.plain_exc_str
            (Examples.answering 200 (str_join (py " ") (Examples.faces 3)))
            Scenarios.env_with_key _ (py "good morning") _ _
            (str_join (py " ") (Examples.faces 3))).
  - reflexivity.
  - reflexivity.
  - simpl. lia.
  - reflexivity.
  - apply extract_text_shape. reflexivity.
  - vm_compute. lia.
Defined.

(** A run of the fallback with the real client: the network is down. *)
Lemma agent_falls_back_run :
  exists agent l,
    AIAgent_init Examples.plain_exc_str Scenarios.unreachable
      Scenarios.env_with_key = ret agent
    /\ get_emojis SentimentAnalyzer_init happy = ret l
    /\ suggest_emojis Examples.plain_unicode_lower Examples.plain_exc_str
         agent (py "good morning")
       = ([py "Using fallback emojis due to: API request failed: error"],
          ret {| emojis := l; message := py "good morning" |}).
Proof.
  destruct (@agent_falls_back Examples.plain_unicode_lower
              Examples.plain_exc_str Scenarios.unreachable
              Scenarios.env_with_key _ (py "good morning") eq_refl)
    as (agent & l & Hinit & Hl & Hdown & _).
  exists agent, l. split; [exact Hinit|]. split; [exact Hl|].
  exact (Hdown (ConnectionError (py "unreachable")) eq_refl eq_refl).
Defined.

(* ------------------------------------------------------------------ *)
(** * The command line loop *)

Unset Implicit Arguments.

Section MainFacts.

Variable unicode_lower : pystr -> pystr.
Variable exc_str : pyexc -> pystr.
Variable network : nat -> Request -> result Response.
Variable getenv : pystr -> option pystr.











(** Without a usable key [main] prints its banner and fails in
    [AIAgent()] with "API key not found": it reads no line and makes no
    call to the network, whatever standard input holds. *)
Theorem main_without_key (lines : list pystr) :
  getenv (py "GEMINI_API_KEY") = None
  \/ getenv (py "GEMINI_API_KEY") = Some [] ->
  main unicode_lower exc_str network getenv lines
  = {| stdout := banner; posts := 0;
       outcome := raise (ValueError (py "API key not found")) |}.
Proof.
  intros H. unfold main. now rewrite (GeminiClient_init_no_key _ H).
Qed.



End MainFacts.

(** A run without a key, and a run with an empty key. *)
Lemma main_without_key_run :
  main Examples.plain_unicode_lower Examples.plain_exc_str
    Scenarios.three_faces_network Scenarios.env_without_key
    [py "hello"; py "q"]
  = {| stdout := banner; posts := 0;
       outcome := raise (ValueError (py "API key not found")) |}
  /\ main Examples.plain_unicode_lower Examples.plain_exc_str
       Scenarios.three_faces_network Scenarios.env_empty_key
       [py "hello"; py "q"]
     = {| stdout := banner; posts := 0;
          outcome := raise (ValueError (py "API key not found")) |}.
Proof.
  split.
  - apply (main_without_key Examples.plain_unicode_lower
             Examples.plain_exc_str Scenarios.three_faces_network
             Scenarios.env_without_key).
    left. reflexivity.
  - apply (main_without_key Examples.plain_unicode_lower
             Examples.plain_exc_str Scenarios.three_faces_network
             Scenarios.env_empty_key).
    right. reflexivity.
Defined.


(** Two runs that do not end normally: the input ends before any line
    quits; the network answers an emoji that cannot be printed. *)
Lemma main_other_ends :
  outcome (main Examples.plain_unicode_lower Examples.plain_exc_str
             Scenarios.three_faces_network Scenarios.env_with_key
             [py "hello"; py "quit"]) = raise EOFError
  /\ outcome (main Examples.plain_unicode_lower Examples.plain_exc_str
                Scenarios.surrogate_network Scenarios.env_with_key
                [py "hello"; py "q"]) = raise UnicodeEncodeError.
Proof.
  split; reflexivity.
Qed.


(* ------------------------------------------------------------------ *)
(** * Which lines quit *)

Lemma forallb_lstrip (P : N -> bool) (s : pystr) :
  forallb P s = true -> forallb P (lstrip s) = true.
Proof.
  induction s as [|c s IH]; simpl; [reflexivity|].
  intros H. destruct (isspace c); [|exact H].
  apply andb_prop in H as [_ H]. auto.
Qed.

Lemma forallb_rev (P : N -> bool) (s : pystr) :
  forallb P (rev s) = forallb P s.
Proof.
  induction s as [|c s IH]; simpl; [reflexivity|].
  rewrite forallb_app, IH. simpl. rewrite andb_true_r. apply andb_comm.
Qed.

Lemma forallb_strip (P : N -> bool) (s : pystr) :
  forallb P s = true -> forallb P (strip s) = true.
Proof.
  intros H. unfold strip, rstrip.
  rewrite forallb_rev. apply forallb_lstrip.
  rewrite forallb_rev. now apply forallb_lstrip.
Qed.

Lemma ascii_lower_q (c : N) :
  ascii_lower c = 113%N <-> c = 113%N \/ c = 81%N.
Proof.
  unfold ascii_lower.
  destruct (N.leb_spec 65 c); destruct (N.leb_spec c 90); simpl; lia.
Qed.

Lemma map_ascii_lower_q (s : pystr) :
  map ascii_lower s = py "q" <-> s = py "q" \/ s = py "Q".
Proof.
  change (py "q") with [113%N]. change (py "Q") with [81%N].
  destruct s as [|c [|d s]]; simpl.
  - split; [discriminate | intros [H|H]; discriminate].
  - split.
    + intros H. injection H as H. apply ascii_lower_q in H.
      destruct H as [->| ->]; auto.
    + intros [H|H]; injection H as ->; reflexivity.
  - split; [discriminate | intros [H|H]; discriminate].
Qed.

(** Among pure ASCII lines, the lines that make [main] quit are exactly
    those that are "q" or "Q" once the white space around them is
    stripped: "quit" or "q!" do not quit. *)
Theorem is_quit_ascii (unicode_lower : pystr -> pystr) (line : pystr) :
  forallb is_ascii line = true ->
  is_quit unicode_lower line = true
  <-> strip line = py "q" \/ strip line = py "Q".
Proof.
  intros H. unfold is_quit.
  rewrite pystr_eqb_eq, (lower_ascii _ _ (forallb_strip _ _ H)).
  apply map_ascii_lower_q.
Qed.

(** A run: " Q " quits. *)
Lemma is_quit_ascii_run :
  is_quit Examples.plain_unicode_lower (py "  Q ") = true.
Proof.
  apply (proj2 (is_quit_ascii Examples.plain_unicode_lower (py "  Q ")
                  eq_refl)).
  right. reflexivity.
Defined.
